(** * Verification of the thumbnail operator's start handler

    Source: [source/operators/thumbnail/start_thumbnail.py].

    The handler [lambda_handler] reads a few fields of a workflow event,
    builds a MediaConvert job request from a fixed literal, submits it with
    one [create_job] call and records the outcome on an operation helper
    object.  It is embedded here as a function in a small state-and-exception
    monad:

    - Python values (the JSON-like data of events, requests and responses)
      are the inductive type [pyval]; a dict is an association list in
      insertion order, as a Python dict literal is;
    - an exception is a value of [exn]; a computation yields [Ok v] or
      [Raise e] together with the state it leaves behind, because the
      mutations done before a [raise] stay visible to the caller;
    - the state holds the helper object ([operator_object]) and the log of
      the [create_job] calls made to the remote service;
    - the remote service is a function from the client and the request to
      what the call does: it returns a response or raises;
    - what [int] makes of a str and whether [boto3.client] gives a client
      are the business of the interpreter and of the library; they are the
      fields of the class [Platform], and every property is proved for
      every platform.

    [print] calls write to the log stream only and are left out. *)

From Stdlib Require Import String Ascii List ZArith Bool Lia.
Import ListNotations.

Local Open Scope list_scope.
Local Open Scope string_scope.
Local Open Scope Z_scope.

(** ** Python values *)

(** A float: a finite one is [m * 2^e], which every double is; the others
    are the infinities and the NaN that [json.loads] gives for [Infinity],
    [-Infinity] and [NaN]. *)
Inductive pyfloat : Type :=
| FFinite (m e : Z)
| FInf (negative : bool)
| FNaN.

(** The values that JSON data and the request literal are made of; a str is
    a string of bytes. *)
#[warnings="-register-all"] Inductive pyval : Type :=
| PNone
| PBool (b : bool)
| PInt (z : Z)
| PFloat (x : pyfloat)
| PStr (s : string)
| PList (l : list pyval)
| PDict (d : list (string * pyval)).

(** ** Dicts *)

Module Dict.

Definition t : Type := list (string * pyval).

(** [d.get(k)]: the value stored under [k], if any. *)
Fixpoint lookup (k : string) (d : t) : option pyval :=
  match d with
  | [] => None
  | (k', v) :: d' => if String.eqb k k' then Some v else lookup k d'
  end.

(** [k in d] *)
Definition mem (k : string) (d : t) : bool :=
  match lookup k d with Some _ => true | None => false end.

(** [d[k] = v]: replaces the value of an existing key in place, appends a
    new key at the end. *)
Fixpoint set (k : string) (v : pyval) (d : t) : t :=
  match d with
  | [] => [(k, v)]
  | (k', v') :: d' =>
      if String.eqb k k' then (k', v) :: d' else (k', v') :: set k v d'
  end.

(** [d.update(kwargs)] *)
Definition update (kwargs : t) (d : t) : t :=
  fold_left (fun acc kv => set (fst kv) (snd kv) acc) kwargs d.

End Dict.

(** ** The workflow record and the operation helper *)

(** Modelled from the spec: class [MediaInsightsOperationHelper] of package
    [MediaInsightsEngineLambdaHelper], which the handler imports and whose
    source is not among the files verified here.  The helper wraps the
    workflow record of the event: the identifiers (workflow execution id,
    asset id), the input with the reference to the source media, the
    operator configuration, and the status and metadata that the handler
    attaches.  An identifier that the event lacks is [None]; reading it
    raises [KeyError], which is what the handler's two [try] blocks guard
    against.  The handler takes the workflow execution id through [str],
    which gives a str for every value, so the field holds that str; the
    asset id it takes as it comes, so the field holds the value, a str or
    not. *)
Record WorkflowRecord : Type := mkWorkflowRecord {
  workflow_execution_id : option string;
  asset_id : option pyval;
  input : pyval;
  configuration : Dict.t;
  status : string;
  metadata : Dict.t
}.

(** ** Exceptions and results *)

(** The exceptions the handler can meet.  [KeyError] carries the missing
    key; [MasExecutionError] carries the object it was constructed with;
    [LibraryError] stands for an exception of a class of boto3 or botocore
    that is none of the others. *)
Inductive exn : Type :=
| KeyError (key : string)
| TypeError
| ValueError
| OverflowError
| LibraryError (cls : string)
| MasExecutionError (output : WorkflowRecord).

Inductive result (A : Type) : Type :=
| Ok (v : A)
| Raise (e : exn).

Arguments Ok {A} v.
Arguments Raise {A} e.

(** ** What the interpreter and the libraries do

    The handler calls [int] and [boto3.client], which belong to the
    interpreter and to a library.  What they do is taken as given. *)

(** How [boto3.client] can fail: with a [ValueError], as it does for an
    endpoint or a region that is not valid, or with an exception of a class
    of its own. *)
Inductive client_failure : Type :=
| InvalidArgument
| OtherFailure (cls : string).

Definition exn_of_client_failure (f : client_failure) : exn :=
  match f with
  | InvalidArgument => ValueError
  | OtherFailure cls => LibraryError cls
  end.

Class Platform : Type := {
  (** [int(s)] for a str [s]: the integer, or [None] where [int] raises
      [ValueError].  Which digits and spaces of which scripts it knows, and
      how long a literal it takes, is the interpreter's affair. *)
  int_str : string -> option Z;
  (** [boto3.client("mediaconvert", region_name=r, endpoint_url=u)]: [None]
      when the client is made, the failure otherwise. *)
  boto3_client : string -> string -> option client_failure;
  (** [boto3.client("mediaconvert", config=c, region_name=r)], where [c]
      comes from the parsed [botoConfig]. *)
  boto3_client_config : pyval -> string -> option client_failure
}.

(** ** Primitive operations of the language *)

(** [str(e)] for [e = KeyError(key)] is [repr(key)]; for the keys that occur
    here (letters and digits only) that is the key between single quotes. *)
Definition str_KeyError (key : string) : string := "'" ++ key ++ "'".

(** [v[k]] with a string subscript: a dict looks the key up and raises
    [KeyError(k)] when it is absent; every other value raises [TypeError]
    (a str or a list wants integer indices, the rest is not subscriptable). *)
Definition py_getitem (v : pyval) (k : string) : result pyval :=
  match v with
  | PDict d =>
      match Dict.lookup k d with
      | Some x => Ok x
      | None => Raise (KeyError k)
      end
  | _ => Raise TypeError
  end.

(** [v[k1][k2]...]: the subscripts applied from left to right. *)
Fixpoint py_getitems (v : pyval) (ks : list string) : result pyval :=
  match ks with
  | [] => Ok v
  | k :: ks' =>
      match py_getitem v k with
      | Ok x => py_getitems x ks'
      | Raise e => Raise e
      end
  end.

(** [s + v] for a str [s]: concatenation when [v] is a str, [TypeError]
    otherwise. *)
Definition py_str_add (s : string) (v : pyval) : result string :=
  match v with
  | PStr s' => Ok (s ++ s')
  | _ => Raise TypeError
  end.

(** *** [int(v)] *)

(** The white space that [int] skips around an ASCII literal. *)
Definition is_space (c : ascii) : bool :=
  match nat_of_ascii c with
  | 9%nat | 10%nat | 11%nat | 12%nat | 13%nat | 32%nat => true
  | _ => false
  end.

Definition digit_of (c : ascii) : option Z :=
  let n := nat_of_ascii c in
  if ((48 <=? n) && (n <=? 57))%nat then Some (Z.of_nat (n - 48)) else None.

Fixpoint lstrip (l : list ascii) : list ascii :=
  match l with
  | c :: l' => if is_space c then lstrip l' else l
  | [] => []
  end.

Definition strip (l : list ascii) : list ascii :=
  rev (lstrip (rev (lstrip l))).

(** Decimal digits, where one underscore may stand between two digits. *)
Fixpoint digits (acc : Z) (after_digit : bool) (l : list ascii) : option Z :=
  match l with
  | [] => if after_digit then Some acc else None
  | c :: l' =>
      if Ascii.eqb c "_"%char then
        if after_digit then digits acc false l' else None
      else
        match digit_of c with
        | Some d => digits (10 * acc + d) true l'
        | None => None
        end
  end.

(** An integer literal in base 10 as [int] reads it in ASCII text:
    surrounding white space, an optional sign, then digits.  It serves the
    sample data. *)
Definition parse_int (s : string) : option Z :=
  match strip (list_ascii_of_string s) with
  | c :: l =>
      if Ascii.eqb c "-"%char then option_map Z.opp (digits 0 false l)
      else if Ascii.eqb c "+"%char then digits 0 false l
      else digits 0 false (c :: l)
  | [] => None
  end.

(** [int(x)] for a finite float: the fraction is cut off, towards zero. *)
Definition float_trunc (m e : Z) : Z :=
  if 0 <=? e then m * 2 ^ e else Z.quot m (2 ^ (- e)).

(** [int(v)] *)
Definition py_int {platform : Platform} (v : pyval) : result Z :=
  match v with
  | PInt z => Ok z
  | PBool b => Ok (if b then 1 else 0)
  | PFloat (FFinite m e) => Ok (float_trunc m e)
  | PFloat (FInf _) => Raise OverflowError
  | PFloat FNaN => Raise ValueError
  | PStr s =>
      match int_str s with
      | Some z => Ok z
      | None => Raise ValueError
      end
  | PNone | PList _ | PDict _ => Raise TypeError
  end.

(** ** Paths into a value *)

Inductive step : Type :=
| Key (k : string)
| Idx (n : nat).

Definition path : Type := list step.

(** The value found by following [p] from [v]. *)
Fixpoint get_at (p : path) (v : pyval) : option pyval :=
  match p with
  | [] => Some v
  | Key k :: p' =>
      match v with
      | PDict d =>
          match Dict.lookup k d with
          | Some x => get_at p' x
          | None => None
          end
      | _ => None
      end
  | Idx n :: p' =>
      match v with
      | PList l =>
          match nth_error l n with
          | Some x => get_at p' x
          | None => None
          end
      | _ => None
      end
  end.

Fixpoint map_key (k : string) (f : pyval -> pyval) (d : Dict.t) : Dict.t :=
  match d with
  | [] => []
  | (k', v) :: d' =>
      if String.eqb k k' then (k', f v) :: d' else (k', v) :: map_key k f d'
  end.

Fixpoint map_nth (n : nat) (f : pyval -> pyval) (l : list pyval) : list pyval :=
  match l, n with
  | [], _ => []
  | x :: l', O => f x :: l'
  | x :: l', S n' => x :: map_nth n' f l'
  end.

(** [v] with the value at [p] replaced by [x]; [v] itself when [p] leads
    nowhere. *)
Fixpoint set_at (p : path) (x : pyval) (v : pyval) : pyval :=
  match p with
  | [] => x
  | Key k :: p' =>
      match v with
      | PDict d => PDict (map_key k (set_at p' x) d)
      | _ => v
      end
  | Idx n :: p' =>
      match v with
      | PList l => PList (map_nth n (set_at p' x) l)
      | _ => v
      end
  end.

(** [v] with the value at every path of [ps] blanked. *)
Definition erase (ps : list path) (v : pyval) : pyval :=
  fold_left (fun acc p => set_at p PNone acc) ps v.

(** ** The process environment and the remote service *)

(** The environment variables read when the module is loaded ([AWS_REGION],
    [mediaconvertRole], [DATAPLANE_BUCKET]; without them the module does not
    load and the handler never runs) and the one read at each invocation
    ([MEDIACONVERT_ENDPOINT], which may be unset). *)
Record environment : Type := mkEnvironment {
  region : string;
  mediaconvert_role : string;
  dataplane_bucket : string;
  MEDIACONVERT_ENDPOINT : option string
}.

(** A client as [boto3.client("mediaconvert", region_name=...,
    endpoint_url=...)] gives it, when it gives one. *)
Record client : Type := mkClient {
  region_name : string;
  endpoint_url : string
}.

(** The keyword arguments of [create_job]. *)
Record job_request : Type := mkJobRequest {
  Role : string;
  Settings : pyval
}.

(** What a [create_job] call does: it returns the response, or raises some
    exception [e], of which the handler uses [str(e)] only. *)
Inductive remote_result : Type :=
| Returns (response : pyval)
| Raises (str_e : string).

(** ** State and the monad of the handler *)

(** One call of [create_job]: the client it went through, the request and
    what came back. *)
Record remote_call : Type := mkRemoteCall {
  call_client : client;
  call_request : job_request;
  call_result : remote_result
}.

Record state : Type := mkState {
  operator_object : WorkflowRecord;
  calls : list remote_call
}.

Definition M (A : Type) : Type := state -> result A * state.

Definition ret {A} (a : A) : M A := fun st => (Ok a, st).

Definition bind {A B} (c : M A) (k : A -> M B) : M B :=
  fun st =>
    match c st with
    | (Ok a, st') => k a st'
    | (Raise e, st') => (Raise e, st')
    end.

Definition raise {A} (e : exn) : M A := fun st => (Raise e, st).

(** A computation without effect on the state. *)
Definition lift {A} (r : result A) : M A := fun st => (r, st).

(** [try: body  except KeyError as e: handler(e)]; any other exception
    passes through. *)
Definition try_except_KeyError {A} (body : M A) (handler : string -> M A) : M A :=
  fun st =>
    match body st with
    | (Raise (KeyError key), st') => handler key st'
    | r => r
    end.

Declare Scope py_scope.
Delimit Scope py_scope with py.

Notation "x <- c ;; k" := (bind c (fun x => k))
  (at level 61, c at next level, right associativity) : py_scope.
Notation "' pat <- c ;; k" := (bind c (fun x => match x with pat => k end))
  (at level 61, pat pattern, c at next level, right associativity) : py_scope.
Notation "c ;; k" := (bind c (fun _ => k))
  (at level 61, right associativity) : py_scope.

Local Open Scope py_scope.

(** *** The helper's attributes and methods *)

(** Modelled from the spec: the attribute [workflow_execution_id] of the
    helper class, missing as the class is; reading it raises [KeyError] when
    the event has no workflow execution id. *)
Definition get_workflow_execution_id : M string :=
  fun st =>
    match workflow_execution_id (operator_object st) with
    | Some w => (Ok w, st)
    | None => (Raise (KeyError "WorkflowExecutionId"), st)
    end.

(** Modelled from the spec: the attribute [asset_id] of the helper class;
    reading it raises [KeyError] when the event has no asset id. *)
Definition get_asset_id : M pyval :=
  fun st =>
    match asset_id (operator_object st) with
    | Some a => (Ok a, st)
    | None => (Raise (KeyError "AssetId"), st)
    end.

(** Modelled from the spec: the attribute [input] of the helper class. *)
Definition get_input : M pyval :=
  fun st => (Ok (input (operator_object st)), st).

(** Modelled from the spec: the attribute [configuration] of the helper
    class, a dict. *)
Definition get_configuration : M Dict.t :=
  fun st => (Ok (configuration (operator_object st)), st).

Definition with_object (f : WorkflowRecord -> WorkflowRecord) : M unit :=
  fun st =>
    (Ok tt, {| operator_object := f (operator_object st);
               calls := calls st |}).

(** Modelled from the spec: the method [update_workflow_status(s)] of the
    helper class, which sets the status of the record. *)
Definition update_workflow_status (s : string) : M unit :=
  with_object (fun o =>
    {| workflow_execution_id := workflow_execution_id o;
       asset_id := asset_id o;
       input := input o;
       configuration := configuration o;
       status := s;
       metadata := metadata o |}).

(** Modelled from the spec: the method [add_workflow_metadata(k1=v1, ...)]
    of the helper class, which stores each keyword argument in the metadata
    of the record, in the order written. *)
Definition add_workflow_metadata (kwargs : Dict.t) : M unit :=
  with_object (fun o =>
    {| workflow_execution_id := workflow_execution_id o;
       asset_id := asset_id o;
       input := input o;
       configuration := configuration o;
       status := status o;
       metadata := Dict.update kwargs (metadata o) |}).

(** Modelled from the spec: the method [return_output_object()] of the
    helper class, which gives the record as it stands. *)
Definition return_output_object : M WorkflowRecord :=
  fun st => (Ok (operator_object st), st).

(** ** The job settings

    The [Settings] argument of [create_job], with the five local variables
    that occur in it. *)
Definition job_settings (thumbnail_position : Z)
    (thumbnail_destination audio_destination proxy_destination : string)
    (file_input : string) : pyval :=
  PDict [
      ("OutputGroups", PList [
        PDict [
          ("CustomName", PStr "thumbnail");
          ("Name", PStr "File Group");
          ("Outputs", PList [
            PDict [
              ("ContainerSettings", PDict [
                ("Container", PStr "RAW") ]);
              ("VideoDescription", PDict [
                ("ScalingBehavior", PStr "DEFAULT");
                ("TimecodeInsertion", PStr "DISABLED");
                ("AntiAlias", PStr "ENABLED");
                ("Sharpness", PInt 50);
                ("CodecSettings", PDict [
                  ("Codec", PStr "FRAME_CAPTURE");
                  ("FrameCaptureSettings", PDict [
                    ("FramerateNumerator", PInt 1);
                    ("FramerateDenominator", PInt thumbnail_position);
                    ("MaxCaptures", PInt 2);
                    ("Quality", PInt 80) ]) ]);
                ("DropFrameTimecode", PStr "ENABLED");
                ("ColorMetadata", PStr "INSERT") ]);
              ("Extension", PStr "jpg");
              ("NameModifier", PStr "_thumbnail") ] ]);
          ("OutputGroupSettings", PDict [
            ("Type", PStr "FILE_GROUP_SETTINGS");
            ("FileGroupSettings", PDict [
              ("Destination", PStr thumbnail_destination) ]) ]) ];
        PDict [
          ("Name", PStr "File Group");
          ("Outputs", PList [
            PDict [
              ("ContainerSettings", PDict [
                ("Container", PStr "MP4");
                ("Mp4Settings", PDict [
                  ("CslgAtom", PStr "INCLUDE");
                  ("FreeSpaceBox", PStr "EXCLUDE");
                  ("MoovPlacement", PStr "PROGRESSIVE_DOWNLOAD") ]) ]);
              ("AudioDescriptions", PList [
                PDict [
                  ("AudioTypeControl", PStr "FOLLOW_INPUT");
                  ("AudioSourceName", PStr "Audio Selector 1");
                  ("CodecSettings", PDict [
                    ("Codec", PStr "AAC");
                    ("AacSettings", PDict [
                      ("AudioDescriptionBroadcasterMix", PStr "NORMAL");
                      ("Bitrate", PInt 96000);
                      ("RateControlMode", PStr "CBR");
                      ("CodecProfile", PStr "LC");
                      ("CodingMode", PStr "CODING_MODE_2_0");
                      ("RawFormat", PStr "NONE");
                      ("SampleRate", PInt 48000);
                      ("Specification", PStr "MPEG4") ]) ]);
                  ("LanguageCodeControl", PStr "FOLLOW_INPUT") ] ]);
              ("Extension", PStr "mp4");
              ("NameModifier", PStr "_audio") ] ]);
          ("OutputGroupSettings", PDict [
            ("Type", PStr "FILE_GROUP_SETTINGS");
            ("FileGroupSettings", PDict [
              ("Destination", PStr audio_destination) ]) ]) ];
        PDict [
          ("CustomName", PStr "proxy");
          ("Name", PStr "File Group");
          ("Outputs", PList [
            PDict [
              ("VideoDescription", PDict [
                ("ScalingBehavior", PStr "DEFAULT");
                ("TimecodeInsertion", PStr "DISABLED");
                ("AntiAlias", PStr "ENABLED");
                ("Sharpness", PInt 50);
                ("CodecSettings", PDict [
                  ("Codec", PStr "H_264");
                  ("H264Settings", PDict [
                    ("InterlaceMode", PStr "PROGRESSIVE");
                    ("NumberReferenceFrames", PInt 3);
                    ("Syntax", PStr "DEFAULT");
                    ("Softness", PInt 0);
                    ("GopClosedCadence", PInt 1);
                    ("GopSize", PInt 90);
                    ("Slices", PInt 1);
                    ("GopBReference", PStr "DISABLED");
                    ("SlowPal", PStr "DISABLED");
                    ("SpatialAdaptiveQuantization", PStr "ENABLED");
                    ("TemporalAdaptiveQuantization", PStr "ENABLED");
                    ("FlickerAdaptiveQuantization", PStr "DISABLED");
                    ("EntropyEncoding", PStr "CABAC");
                    ("Bitrate", PInt 1600000);
                    ("FramerateControl", PStr "SPECIFIED");
                    ("RateControlMode", PStr "CBR");
                    ("CodecProfile", PStr "MAIN");
                    ("Telecine", PStr "NONE");
                    ("MinIInterval", PInt 0);
                    ("AdaptiveQuantization", PStr "HIGH");
                    ("CodecLevel", PStr "AUTO");
                    ("FieldEncoding", PStr "PAFF");
                    ("SceneChangeDetect", PStr "ENABLED");
                    ("QualityTuningLevel", PStr "SINGLE_PASS");
                    ("FramerateConversionAlgorithm", PStr "DUPLICATE_DROP");
                    ("UnregisteredSeiTimecode", PStr "DISABLED");
                    ("GopSizeUnits", PStr "FRAMES");
                    ("ParControl", PStr "SPECIFIED");
                    ("NumberBFramesBetweenReferenceFrames", PInt 2);
                    ("RepeatPps", PStr "DISABLED");
                    ("FramerateNumerator", PInt 30);
                    ("FramerateDenominator", PInt 1);
                    ("ParNumerator", PInt 1);
                    ("ParDenominator", PInt 1) ]) ]);
                ("AfdSignaling", PStr "NONE");
                ("DropFrameTimecode", PStr "ENABLED");
                ("RespondToAfd", PStr "NONE");
                ("ColorMetadata", PStr "INSERT") ]);
              ("AudioDescriptions", PList [
                PDict [
                  ("AudioTypeControl", PStr "FOLLOW_INPUT");
                  ("CodecSettings", PDict [
                    ("Codec", PStr "AAC");
                    ("AacSettings", PDict [
                      ("AudioDescriptionBroadcasterMix", PStr "NORMAL");
                      ("RateControlMode", PStr "CBR");
                      ("CodecProfile", PStr "LC");
                      ("CodingMode", PStr "CODING_MODE_2_0");
                      ("RawFormat", PStr "NONE");
                      ("SampleRate", PInt 48000);
                      ("Specification", PStr "MPEG4");
                      ("Bitrate", PInt 64000) ]) ]);
                  ("LanguageCodeControl", PStr "FOLLOW_INPUT");
                  ("AudioSourceName", PStr "Audio Selector 1") ] ]);
              ("ContainerSettings", PDict [
                ("Container", PStr "MP4");
                ("Mp4Settings", PDict [
                  ("CslgAtom", PStr "INCLUDE");
                  ("FreeSpaceBox", PStr "EXCLUDE");
                  ("MoovPlacement", PStr "PROGRESSIVE_DOWNLOAD") ]) ]);
              ("Extension", PStr "mp4");
              ("NameModifier", PStr "_proxy") ] ]);
          ("OutputGroupSettings", PDict [
            ("Type", PStr "FILE_GROUP_SETTINGS");
            ("FileGroupSettings", PDict [
              ("Destination", PStr proxy_destination) ]) ]) ];
        PDict [
          ("Name", PStr "Apple HLS");
          ("Outputs", PList [
            PDict [
              ("ContainerSettings", PDict [
                ("Container", PStr "M3U8");
                ("M3u8Settings", PDict []) ]);
              ("VideoDescription", PDict [
                ("Width", PInt 1920);
                ("Height", PInt 1080);
                ("CodecSettings", PDict [
                  ("Codec", PStr "H_264");
                  ("H264Settings", PDict [
                    ("MaxBitrate", PInt 4000000);
                    ("RateControlMode", PStr "QVBR");
                    ("SceneChangeDetect", PStr "TRANSITION_DETECTION") ]) ]) ]);
              ("AudioDescriptions", PList [
                PDict [
                  ("CodecSettings", PDict [
                    ("Codec", PStr "AAC");
                    ("AacSettings", PDict [
                      ("Bitrate", PInt 96000);
                      ("CodingMode", PStr "CODING_MODE_2_0");
                      ("SampleRate", PInt 48000) ]) ]) ] ]);
              ("OutputSettings", PDict [
                ("HlsSettings", PDict []) ]);
              ("NameModifier", PStr "_1080p") ];
            PDict [
              ("ContainerSettings", PDict [
                ("Container", PStr "M3U8");
                ("M3u8Settings", PDict []) ]);
              ("VideoDescription", PDict [
                ("Width", PInt 1280);
                ("Height", PInt 720);
                ("CodecSettings", PDict [
                  ("Codec", PStr "H_264");
                  ("H264Settings", PDict [
                    ("MaxBitrate", PInt 2500000);
                    ("RateControlMode", PStr "QVBR");
                    ("SceneChangeDetect", PStr "TRANSITION_DETECTION") ]) ]) ]);
              ("AudioDescriptions", PList [
                PDict [
                  ("CodecSettings", PDict [
                    ("Codec", PStr "AAC");
                    ("AacSettings", PDict [
                      ("Bitrate", PInt 96000);
                      ("CodingMode", PStr "CODING_MODE_2_0");
                      ("SampleRate", PInt 48000) ]) ]) ] ]);
              ("OutputSettings", PDict [
                ("HlsSettings", PDict []) ]);
              ("NameModifier", PStr "_720ph") ];
            PDict [
              ("ContainerSettings", PDict [
                ("Container", PStr "M3U8");
                ("M3u8Settings", PDict []) ]);
              ("VideoDescription", PDict [
                ("Width", PInt 1280);
                ("Height", PInt 720);
                ("CodecSettings", PDict [
                  ("Codec", PStr "H_264");
                  ("H264Settings", PDict [
                    ("MaxBitrate", PInt 1500000);
                    ("RateControlMode", PStr "QVBR");
                    ("SceneChangeDetect", PStr "TRANSITION_DETECTION") ]) ]) ]);
              ("AudioDescriptions", PList [
                PDict [
                  ("CodecSettings", PDict [
                    ("Codec", PStr "AAC");
                    ("AacSettings", PDict [
                      ("Bitrate", PInt 96000);
                      ("CodingMode", PStr "CODING_MODE_2_0");
                      ("SampleRate", PInt 48000) ]) ]) ] ]);
              ("OutputSettings", PDict [
                ("HlsSettings", PDict []) ]);
              ("NameModifier", PStr "_720pl") ];
            PDict [
              ("ContainerSettings", PDict [
                ("Container", PStr "M3U8");
                ("M3u8Settings", PDict []) ]);
              ("VideoDescription", PDict [
                ("Width", PInt 960);
                ("Height", PInt 540);
                ("CodecSettings", PDict [
                  ("Codec", PStr "H_264");
                  ("H264Settings", PDict [
                    ("MaxBitrate", PInt 1000000);
                    ("RateControlMode", PStr "QVBR");
                    ("SceneChangeDetect", PStr "TRANSITION_DETECTION") ]) ]) ]);
              ("AudioDescriptions", PList [
                PDict [
                  ("CodecSettings", PDict [
                    ("Codec", PStr "AAC");
                    ("AacSettings", PDict [
                      ("Bitrate", PInt 96000);
                      ("CodingMode", PStr "CODING_MODE_2_0");
                      ("SampleRate", PInt 48000) ]) ]) ] ]);
              ("OutputSettings", PDict [
                ("HlsSettings", PDict []) ]);
              ("NameModifier", PStr "_540p") ];
            PDict [
              ("ContainerSettings", PDict [
                ("Container", PStr "M3U8");
                ("M3u8Settings", PDict []) ]);
              ("VideoDescription", PDict [
                ("Width", PInt 640);
                ("Height", PInt 360);
                ("CodecSettings", PDict [
                  ("Codec", PStr "H_264");
                  ("H264Settings", PDict [
                    ("MaxBitrate", PInt 600000);
                    ("RateControlMode", PStr "QVBR");
                    ("SceneChangeDetect", PStr "TRANSITION_DETECTION") ]) ]) ]);
              ("AudioDescriptions", PList [
                PDict [
                  ("CodecSettings", PDict [
                    ("Codec", PStr "AAC");
                    ("AacSettings", PDict [
                      ("Bitrate", PInt 96000);
                      ("CodingMode", PStr "CODING_MODE_2_0");
                      ("SampleRate", PInt 48000) ]) ]) ] ]);
              ("OutputSettings", PDict [
                ("HlsSettings", PDict []) ]);
              ("NameModifier", PStr "_360p") ] ]);
          ("OutputGroupSettings", PDict [
            ("Type", PStr "HLS_GROUP_SETTINGS");
            ("HlsGroupSettings", PDict [
              ("SegmentLength", PInt 6);
              ("Destination", PStr proxy_destination);
              ("MinSegmentLength", PInt 1);
              ("MinFinalSegmentLength", PInt 1);
              ("SegmentControl", PStr "SEGMENTED_FILES") ]) ]) ] ]);
      ("Inputs", PList [
        PDict [
          ("AudioSelectors", PDict [
            ("Audio Selector 1", PDict [
              ("Offset", PInt 0);
              ("DefaultSelection", PStr "DEFAULT");
              ("ProgramSelection", PInt 1) ]) ]);
          ("VideoSelector", PDict [
            ("ColorSpace", PStr "FOLLOW") ]);
          ("FileInput", PStr file_input) ] ]) ].

(** The places of the literal that hold a local variable. *)
Definition FramerateDenominator_path : path :=
  [Key "OutputGroups"; Idx 0; Key "Outputs"; Idx 0; Key "VideoDescription";
   Key "CodecSettings"; Key "FrameCaptureSettings"; Key "FramerateDenominator"].

Definition FramerateNumerator_path : path :=
  [Key "OutputGroups"; Idx 0; Key "Outputs"; Idx 0; Key "VideoDescription";
   Key "CodecSettings"; Key "FrameCaptureSettings"; Key "FramerateNumerator"].

Definition thumbnail_destination_path : path :=
  [Key "OutputGroups"; Idx 0; Key "OutputGroupSettings";
   Key "FileGroupSettings"; Key "Destination"].

Definition audio_destination_path : path :=
  [Key "OutputGroups"; Idx 1; Key "OutputGroupSettings";
   Key "FileGroupSettings"; Key "Destination"].

Definition proxy_destination_path : path :=
  [Key "OutputGroups"; Idx 2; Key "OutputGroupSettings";
   Key "FileGroupSettings"; Key "Destination"].

Definition hls_destination_path : path :=
  [Key "OutputGroups"; Idx 3; Key "OutputGroupSettings";
   Key "HlsGroupSettings"; Key "Destination"].

Definition FileInput_path : path :=
  [Key "Inputs"; Idx 0; Key "FileInput"].

Definition variable_paths : list path :=
  [FramerateDenominator_path; thumbnail_destination_path;
   audio_destination_path; proxy_destination_path; hls_destination_path;
   FileInput_path].

(** ** The handler *)

Section Handler.

Context {platform : Platform}.

Variable env : environment.

(** The MediaConvert service as seen through a client.  An invocation
    calls it once at most, so a function of the request is enough. *)
Variable remote : client -> job_request -> remote_result.

(** [os.environ["MEDIACONVERT_ENDPOINT"]] *)
Definition environ_MEDIACONVERT_ENDPOINT : M string :=
  match MEDIACONVERT_ENDPOINT env with
  | Some url => ret url
  | None => raise (KeyError "MEDIACONVERT_ENDPOINT")
  end.

(** [boto3.client("mediaconvert", region_name=region, endpoint_url=url)]:
    the client, or the exception that [boto3.client] raises. *)
Definition boto3_client_endpoint (url : string) : M client :=
  match boto3_client (region env) url with
  | None => ret {| region_name := region env; endpoint_url := url |}
  | Some failure => raise (exn_of_client_failure failure)
  end.

(** [c.create_job(Role=..., Settings=...)]: the request goes out and the
    service answers, which the log records. *)
Definition create_job (c : client) (req : job_request) : M remote_result :=
  fun st =>
    (Ok (remote c req),
     {| operator_object := operator_object st;
        calls := calls st ++ [mkRemoteCall c req (remote c req)] |}).

(** The body of the handler after [operator_object] is made.  Where the
    source concatenates strs from the left, [++] associates to the right;
    the strings are the same. *)
Definition lambda_handler_body : M WorkflowRecord :=
  (* lines 52-59 *)
  ' (workflow_id, input_bucket, input_key) <-
    try_except_KeyError
      (workflow_id <- get_workflow_execution_id ;;
       i <- get_input ;;
       input_bucket <- lift (py_getitems i ["Media"; "Video"; "S3Bucket"]) ;;
       i <- get_input ;;
       input_key <- lift (py_getitems i ["Media"; "Video"; "S3Key"]) ;;
       ret (workflow_id, input_bucket, input_key))
      (fun e =>
         update_workflow_status "Error" ;;
         add_workflow_metadata
           [("ThumbnailError",
             PStr ("Missing a required metadata key " ++ str_KeyError e))] ;;
         o <- return_output_object ;;
         raise (MasExecutionError o)) ;;
  (* lines 62-66 *)
  asset_id <- try_except_KeyError get_asset_id (fun e => ret (PStr "")) ;;
  (* line 67 *)
  file_input <-
    (s <- lift (py_str_add "s3://" input_bucket) ;;
     lift (py_str_add (s ++ "/") input_key)) ;;
  (* line 68 *)
  audio_destination <-
    (s <- lift (py_str_add
                  ("s3://" ++ dataplane_bucket env ++ "/" ++ "private/assets/")
                  asset_id) ;;
     ret (s ++ "/workflows/" ++ workflow_id ++ "/")) ;;
  (* line 69 *)
  thumbnail_destination <-
    (s <- lift (py_str_add
                  ("s3://" ++ dataplane_bucket env ++ "/" ++ "private/assets/")
                  asset_id) ;;
     ret (s ++ "/")) ;;
  (* line 70 *)
  proxy_destination <-
    (s <- lift (py_str_add
                  ("s3://" ++ dataplane_bucket env ++ "/" ++ "private/assets/")
                  asset_id) ;;
     ret (s ++ "/")) ;;
  (* lines 73-76 *)
  cfg <- get_configuration ;;
  thumbnail_position <-
    (if Dict.mem "ThumbnailPosition" cfg then
       v <- lift (py_getitem (PDict cfg) "ThumbnailPosition") ;;
       lift (py_int v)
     else ret 7) ;;
  (* line 78 *)
  mediaconvert_endpoint <- environ_MEDIACONVERT_ENDPOINT ;;
  (* line 79 *)
  customer_mediaconvert <- boto3_client_endpoint mediaconvert_endpoint ;;
  (* lines 81-454: the try body is the call *)
  r <- create_job customer_mediaconvert
         {| Role := mediaconvert_role env;
            Settings := job_settings thumbnail_position
                          thumbnail_destination audio_destination
                          proxy_destination file_input |} ;;
  match r with
  | Raises str_e =>
      (* lines 457-461: except Exception as e *)
      update_workflow_status "Error" ;;
      add_workflow_metadata [("ThumbnailError", PStr str_e)] ;;
      o <- return_output_object ;;
      raise (MasExecutionError o)
  | Returns response =>
      (* lines 462-466: else *)
      job_id <- lift (py_getitems response ["Job"; "Id"]) ;;
      update_workflow_status "Executing" ;;
      add_workflow_metadata
        [("MediaconvertJobId", job_id);
         ("MediaconvertInputFile", PStr file_input);
         ("AssetId", asset_id);
         ("WorkflowExecutionId", PStr workflow_id)] ;;
      return_output_object
  end.

(** [operator_object = MediaInsightsOperationHelper(event)], then the
    body; nothing has been submitted when the invocation starts. *)
Definition lambda_handler (event : WorkflowRecord) : result WorkflowRecord * state :=
  lambda_handler_body {| operator_object := event; calls := [] |}.

End Handler.

(** * Runs of the handler *)

(** ** The path conditions of the handler

    The values that decide which way an invocation goes, each written as the
    handler computes it. *)

Definition bucket_keys : list string := ["Media"; "Video"; "S3Bucket"].
Definition key_keys : list string := ["Media"; "Video"; "S3Key"].

(** The outcome of the first [try] body. *)
Definition required_fields (ev : WorkflowRecord) : result (string * pyval * pyval) :=
  match workflow_execution_id ev with
  | None => Raise (KeyError "WorkflowExecutionId")
  | Some w =>
      match py_getitems (input ev) bucket_keys with
      | Raise e => Raise e
      | Ok b =>
          match py_getitems (input ev) key_keys with
          | Raise e => Raise e
          | Ok k => Ok (w, b, k)
          end
      end
  end.

(** The asset id after the second [try]. *)
Definition asset_or_empty (ev : WorkflowRecord) : pyval :=
  match asset_id ev with Some a => a | None => PStr "" end.

(** ["s3://" + input_bucket + "/" + input_key] *)
Definition file_location (b k : pyval) : result string :=
  match py_str_add "s3://" b with
  | Ok s => py_str_add (s ++ "/") k
  | Raise e => Raise e
  end.

(** The thumbnail position after the [if]. *)
Definition position {platform : Platform} (cfg : Dict.t) : result Z :=
  match Dict.lookup "ThumbnailPosition" cfg with
  | Some v => py_int v
  | None => Ok 7
  end.

(** The record [o] once a status and metadata have been attached to it. *)
Definition attach (s : string) (kwargs : Dict.t) (o : WorkflowRecord) : WorkflowRecord :=
  {| workflow_execution_id := workflow_execution_id o;
     asset_id := asset_id o;
     input := input o;
     configuration := configuration o;
     status := s;
     metadata := Dict.update kwargs (metadata o) |}.

Section Runs.

Context {platform : Platform}.

Variable env : environment.
Variable remote : client -> job_request -> remote_result.
Variable ev : WorkflowRecord.

(** The thumbnail and the proxy destination for the asset id [a]. *)
Definition asset_prefix (a : string) : string :=
  "s3://" ++ dataplane_bucket env ++ "/" ++ "private/assets/" ++ a ++ "/".

(** The request that goes out for asset id [a], workflow id [w], file
    location [f] and thumbnail position [p]. *)
Definition request (a w f : string) (p : Z) : job_request :=
  {| Role := mediaconvert_role env;
     Settings :=
       job_settings p (asset_prefix a)
         ("s3://" ++ dataplane_bucket env ++ "/" ++ "private/assets/"
            ++ a ++ "/workflows/" ++ w ++ "/")
         (asset_prefix a) f |}.

Definition the_client (url : string) : client :=
  {| region_name := region env; endpoint_url := url |}.

Definition the_call (url a w f : string) (p : Z) (r : remote_result) : remote_call :=
  mkRemoteCall (the_client url) (request a w f p) r.

Definition missing_key_record (key : string) : WorkflowRecord :=
  attach "Error"
    [("ThumbnailError",
      PStr ("Missing a required metadata key " ++ str_KeyError key))] ev.

Definition submission_error_record (str_e : string) : WorkflowRecord :=
  attach "Error" [("ThumbnailError", PStr str_e)] ev.

Definition executing_record (job_id : pyval) (w f : string) : WorkflowRecord :=
  attach "Executing"
    [("MediaconvertJobId", job_id);
     ("MediaconvertInputFile", PStr f);
     ("AssetId", asset_or_empty ev);
     ("WorkflowExecutionId", PStr w)] ev.

(** Every way an invocation can go, with the conditions that lead there. *)
Inductive run : result WorkflowRecord * state -> Prop :=
| run_missing_key key :
    required_fields ev = Raise (KeyError key) ->
    run (Raise (MasExecutionError (missing_key_record key)),
         mkState (missing_key_record key) [])
| run_extraction_raises e :
    required_fields ev = Raise e ->
    (forall key, e <> KeyError key) ->
    run (Raise e, mkState ev [])
| run_file_location_raises w b k e :
    required_fields ev = Ok (w, b, k) ->
    file_location b k = Raise e ->
    run (Raise e, mkState ev [])
| run_destination_raises w b k f :
    required_fields ev = Ok (w, b, k) ->
    file_location b k = Ok f ->
    (forall a, asset_or_empty ev <> PStr a) ->
    run (Raise TypeError, mkState ev [])
| run_position_raises w b k f a e :
    required_fields ev = Ok (w, b, k) ->
    file_location b k = Ok f ->
    asset_or_empty ev = PStr a ->
    position (configuration ev) = Raise e ->
    run (Raise e, mkState ev [])
| run_no_endpoint w b k f a p :
    required_fields ev = Ok (w, b, k) ->
    file_location b k = Ok f ->
    asset_or_empty ev = PStr a ->
    position (configuration ev) = Ok p ->
    MEDIACONVERT_ENDPOINT env = None ->
    run (Raise (KeyError "MEDIACONVERT_ENDPOINT"), mkState ev [])
| run_client_raises w b k f a p url failure :
    required_fields ev = Ok (w, b, k) ->
    file_location b k = Ok f ->
    asset_or_empty ev = PStr a ->
    position (configuration ev) = Ok p ->
    MEDIACONVERT_ENDPOINT env = Some url ->
    boto3_client (region env) url = Some failure ->
    run (Raise (exn_of_client_failure failure), mkState ev [])
| run_submission_raises w b k f a p url str_e :
    required_fields ev = Ok (w, b, k) ->
    file_location b k = Ok f ->
    asset_or_empty ev = PStr a ->
    position (configuration ev) = Ok p ->
    MEDIACONVERT_ENDPOINT env = Some url ->
    boto3_client (region env) url = None ->
    remote (the_client url) (request a w f p) = Raises str_e ->
    run (Raise (MasExecutionError (submission_error_record str_e)),
         mkState (submission_error_record str_e)
           [the_call url a w f p (Raises str_e)])
| run_response_raises w b k f a p url response e :
    required_fields ev = Ok (w, b, k) ->
    file_location b k = Ok f ->
    asset_or_empty ev = PStr a ->
    position (configuration ev) = Ok p ->
    MEDIACONVERT_ENDPOINT env = Some url ->
    boto3_client (region env) url = None ->
    remote (the_client url) (request a w f p) = Returns response ->
    py_getitems response ["Job"; "Id"] = Raise e ->
    run (Raise e, mkState ev [the_call url a w f p (Returns response)])
| run_executing w b k f a p url response job_id :
    required_fields ev = Ok (w, b, k) ->
    file_location b k = Ok f ->
    asset_or_empty ev = PStr a ->
    position (configuration ev) = Ok p ->
    MEDIACONVERT_ENDPOINT env = Some url ->
    boto3_client (region env) url = None ->
    remote (the_client url) (request a w f p) = Returns response ->
    py_getitems response ["Job"; "Id"] = Ok job_id ->
    run (Ok (executing_record job_id w f),
         mkState (executing_record job_id w f)
           [the_call url a w f p (Returns response)]).

End Runs.

(** ** Shapes of events

    The conditions on an event that the properties below speak of. *)

(** The field under the keys [ks] is missing from [v]: one of the dicts on
    the way lacks its key. *)
Fixpoint absent (v : pyval) (ks : list string) : bool :=
  match ks with
  | [] => false
  | k :: ks' =>
      match v with
      | PDict d =>
          match Dict.lookup k d with
          | None => true
          | Some x => absent x ks'
          end
      | _ => false
      end
  end.

(** The event lacks the workflow execution id, the source bucket or the
    source key. *)
Definition missing_required (ev : WorkflowRecord) : bool :=
  match workflow_execution_id ev with None => true | Some _ => false end
  || absent (input ev) bucket_keys
  || absent (input ev) key_keys.

Definition is_str (r : result pyval) : bool :=
  match r with Ok (PStr _) => true | _ => false end.

Definition is_ok {A} (r : result A) : bool :=
  match r with Ok _ => true | Raise _ => false end.

(** The three required fields are there, bucket and key being strings. *)
Definition required_present (ev : WorkflowRecord) : bool :=
  match workflow_execution_id ev with Some _ => true | None => false end
  && is_str (py_getitems (input ev) bucket_keys)
  && is_str (py_getitems (input ev) key_keys).

(** The asset id is a str, or the event has none. *)
Definition asset_typed (ev : WorkflowRecord) : bool :=
  is_str (Ok (asset_or_empty ev)).

(** A valid input: the required fields are there, the asset id is a str if
    it is there, and the thumbnail position, when configured, converts to
    an integer. *)
Definition valid_event {platform : Platform} (ev : WorkflowRecord) : bool :=
  required_present ev && asset_typed ev && is_ok (position (configuration ev)).

Definition str_or_absent (r : result pyval) : bool :=
  match r with
  | Ok (PStr _) => true
  | Raise (KeyError _) => true
  | _ => false
  end.

(** Bucket and key are each a string or missing. *)
Definition fields_typed (ev : WorkflowRecord) : bool :=
  str_or_absent (py_getitems (input ev) bucket_keys)
  && str_or_absent (py_getitems (input ev) key_keys).

(** The two ways an invocation is meant to end. *)
Definition returns_executing (r : result WorkflowRecord * state) : Prop :=
  exists out, fst r = Ok out /\ status (operator_object (snd r)) = "Executing".

Definition fails_with_error (r : result WorkflowRecord * state) : Prop :=
  exists e, fst r = Raise e /\ status (operator_object (snd r)) = "Error".

(** The event [ev] with the asset id [a]. *)
Definition with_asset_id (a : option pyval) (ev : WorkflowRecord) : WorkflowRecord :=
  {| workflow_execution_id := workflow_execution_id ev;
     asset_id := a;
     input := input ev;
     configuration := configuration ev;
     status := status ev;
     metadata := metadata ev |}.

(** The end of an invocation [r] with the asset id [a] put into the record
    wherever the record shows. *)
Definition set_asset_id (a : option pyval) (r : result WorkflowRecord * state)
    : result WorkflowRecord * state :=
  (match fst r with
   | Ok o => Ok (with_asset_id a o)
   | Raise (MasExecutionError o) => Raise (MasExecutionError (with_asset_id a o))
   | Raise e => Raise e
   end,
   mkState (with_asset_id a (operator_object (snd r))) (calls (snd r))).

(** ** Paths that part

    Two paths part when they differ at some step before either ends; what
    one leads to then lies outside what the other leads to. *)

Definition step_eqb (s t : step) : bool :=
  match s, t with
  | Key k, Key k' => String.eqb k k'
  | Idx n, Idx n' => Nat.eqb n n'
  | _, _ => false
  end.

Fixpoint part (p q : path) : bool :=
  match p, q with
  | s :: p', t :: q' => if step_eqb s t then part p' q' else true
  | _, _ => false
  end.

(** ** Sample data *)

Module Sample.

(** A name of a region: letters, digits and hyphens. *)
Definition region_char (c : ascii) : bool :=
  let n := nat_of_ascii c in
  ((48 <=? n) && (n <=? 57) || (97 <=? n) && (n <=? 122) || (n =? 45))%nat.

Definition region_ok (r : string) : bool :=
  negb (String.eqb r "") && forallb region_char (list_ascii_of_string r).

(** A platform for the sample data: [int] reads ASCII literals; a client
    is made for a region that is a name and, when an endpoint is given, an
    endpoint that begins with a scheme. *)
#[global] Instance platform : Platform :=
  {| int_str := parse_int;
     boto3_client := fun r url =>
       if region_ok r && String.prefix "https://" url then None
       else Some InvalidArgument;
     boto3_client_config := fun c r =>
       if region_ok r then None else Some InvalidArgument |}.

Definition env : environment :=
  {| region := "us-east-1";
     mediaconvert_role := "arn:aws:iam::111122223333:role/mediaconvert";
     dataplane_bucket := "dataplane";
     MEDIACONVERT_ENDPOINT := Some "https://mediaconvert.example" |}.

Definition video (bucket key : string) : pyval :=
  PDict [("Media",
          PDict [("Video",
                  PDict [("S3Bucket", PStr bucket); ("S3Key", PStr key)])])].

(** The scenario of the spec. *)
Definition event : WorkflowRecord :=
  {| workflow_execution_id := Some "wf-1";
     asset_id := Some (PStr "asset-1");
     input := video "input-bucket" "videos/a.mp4";
     configuration := [];
     status := "Started";
     metadata := [] |}.

Definition with_configuration (cfg : Dict.t) (ev : WorkflowRecord) : WorkflowRecord :=
  {| workflow_execution_id := workflow_execution_id ev;
     asset_id := asset_id ev;
     input := input ev;
     configuration := cfg;
     status := status ev;
     metadata := metadata ev |}.

Definition with_input (i : pyval) (ev : WorkflowRecord) : WorkflowRecord :=
  {| workflow_execution_id := workflow_execution_id ev;
     asset_id := asset_id ev;
     input := i;
     configuration := configuration ev;
     status := status ev;
     metadata := metadata ev |}.

Definition without_asset_id (ev : WorkflowRecord) : WorkflowRecord :=
  with_asset_id None ev.

(** No source bucket. *)
Definition event_no_bucket : WorkflowRecord :=
  with_input
    (PDict [("Media", PDict [("Video", PDict [("S3Key", PStr "videos/a.mp4")])])])
    event.

Definition event_position (v : pyval) : WorkflowRecord :=
  with_configuration [("ThumbnailPosition", v)] event.

(** Neither asset id nor source bucket. *)
Definition event_no_asset_no_bucket : WorkflowRecord :=
  with_asset_id None event_no_bucket.

(** No source bucket, and a thumbnail position that is no number. *)
Definition event_no_bucket_position (v : pyval) : WorkflowRecord :=
  with_configuration [("ThumbnailPosition", v)] event_no_bucket.

(** A service that accepts every job. *)
Definition accepting (job_id : string) (c : client) (req : job_request) : remote_result :=
  Returns (PDict [("Job", PDict [("Id", PStr job_id)])]).

(** A service that refuses every job. *)
Definition refusing (str_e : string) (c : client) (req : job_request) : remote_result :=
  Raises str_e.

End Sample.


(** * Further code and vocabulary *)

(** ** Loading the module

    Lines 37-45 run once, when the module is loaded: they read four
    variables of the process, parse one of them as the client
    configuration and make a client, which the handler does not use.
    [json.loads] and [Config] belong to libraries and are taken as given,
    as [boto3.client] is; [patch_all] is taken to succeed. *)

(** [os.environ]: names and values are strings. *)
Definition os_environ : Type := list (string * string).

(** [os.environ.get(k)] *)
Fixpoint environ_get (k : string) (environ : os_environ) : option string :=
  match environ with
  | [] => None
  | (k', v) :: environ' =>
      if String.eqb k k' then Some v else environ_get k environ'
  end.

(** [os.environ[k]] *)
Definition environ_getitem (environ : os_environ) (k : string) : result string :=
  match environ_get k environ with
  | Some v => Ok v
  | None => Raise (KeyError k)
  end.

Section Module.

Context {platform : Platform}.

(** [json.loads] *)
Variable json_loads : string -> result pyval.

(** [config.Config], called with the parsed value as keyword arguments. *)
Variable Config : pyval -> result unit.

(** The module body.  What it leaves behind for the handler is the
    [environment]; the endpoint is looked up later, by each invocation, in
    the same [os.environ]. *)
Definition module_init (environ : os_environ) : result environment :=
  (* line 39 *)
  match environ_getitem environ "AWS_REGION" with
  | Raise e => Raise e
  | Ok region =>
      (* line 40 *)
      match environ_getitem environ "botoConfig" with
      | Raise e => Raise e
      | Ok s =>
          match json_loads s with
          | Raise e => Raise e
          | Ok mie_config =>
              (* line 41 *)
              match Config mie_config with
              | Raise e => Raise e
              | Ok _ =>
                  (* line 43 *)
                  match environ_getitem environ "mediaconvertRole" with
                  | Raise e => Raise e
                  | Ok mediaconvert_role =>
                      (* line 44 *)
                      match environ_getitem environ "DATAPLANE_BUCKET" with
                      | Raise e => Raise e
                      | Ok dataplane_bucket =>
                          (* line 45 *)
                          match boto3_client_config mie_config region with
                          | Some failure =>
                              Raise (exn_of_client_failure failure)
                          | None =>
                              Ok {| region := region;
                                    mediaconvert_role := mediaconvert_role;
                                    dataplane_bucket := dataplane_bucket;
                                    MEDIACONVERT_ENDPOINT :=
                                      environ_get "MEDIACONVERT_ENDPOINT"
                                        environ |}
                          end
                      end
                  end
              end
          end
      end
  end.

End Module.

(** The variables the module body reads, in the order it reads them. *)
Definition load_variables : list string :=
  ["AWS_REGION"; "botoConfig"; "mediaconvertRole"; "DATAPLANE_BUCKET"].

(** The first name of [ks] that [environ] does not define. *)
Fixpoint first_unset (environ : os_environ) (ks : list string) : option string :=
  match ks with
  | [] => None
  | k :: ks' =>
      match environ_get k environ with
      | Some _ => first_unset environ ks'
      | None => Some k
      end
  end.

(** ** Searching a value *)

(** Every value stored under the key [k], at any depth of [v], in the order
    of the text. *)
Fixpoint collect (k : string) (v : pyval) : list pyval :=
  match v with
  | PDict d =>
      (fix in_dict (d : list (string * pyval)) : list pyval :=
         match d with
         | [] => []
         | (k', x) :: d' =>
             ((if String.eqb k k' then [x] else []) ++ collect k x
                ++ in_dict d')%list
         end) d
  | PList l =>
      (fix in_list (l : list pyval) : list pyval :=
         match l with
         | [] => []
         | x :: l' => (collect k x ++ in_list l')%list
         end) l
  | _ => []
  end.

(** The strings among [vs]. *)
Fixpoint strings_of (vs : list pyval) : list string :=
  match vs with
  | [] => []
  | PStr s :: vs' => s :: strings_of vs'
  | _ :: vs' => strings_of vs'
  end.

(** Two events that agree on what the handler reads: the workflow
    execution id, the asset id (none counting as the empty string), what the
    subscripts for bucket and key give, and the thumbnail position.  They
    may differ in status, in metadata and in everything else that the input
    and the configuration hold. *)
Definition same_reads (ev ev' : WorkflowRecord) : Prop :=
  workflow_execution_id ev = workflow_execution_id ev'
  /\ asset_or_empty ev = asset_or_empty ev'
  /\ py_getitems (input ev) bucket_keys = py_getitems (input ev') bucket_keys
  /\ py_getitems (input ev) key_keys = py_getitems (input ev') key_keys
  /\ Dict.lookup "ThumbnailPosition" (configuration ev)
     = Dict.lookup "ThumbnailPosition" (configuration ev').

Module Sample2.

(** A process environment with everything set. *)
Definition environ : os_environ :=
  [("AWS_REGION", "us-east-1");
   ("botoConfig", "{}");
   ("mediaconvertRole", "arn:aws:iam::111122223333:role/mediaconvert");
   ("DATAPLANE_BUCKET", "dataplane");
   ("MEDIACONVERT_ENDPOINT", "https://mediaconvert.example")].

(** The same without the endpoint. *)
Definition environ_no_endpoint : os_environ :=
  [("AWS_REGION", "us-east-1");
   ("botoConfig", "{}");
   ("mediaconvertRole", "arn:aws:iam::111122223333:role/mediaconvert");
   ("DATAPLANE_BUCKET", "dataplane")].

(** The same with a region that is no name, and without the endpoint. *)
Definition environ_bad_region : os_environ :=
  [("AWS_REGION", "us east 1");
   ("botoConfig", "{}");
   ("mediaconvertRole", "arn:aws:iam::111122223333:role/mediaconvert");
   ("DATAPLANE_BUCKET", "dataplane")].

(** The same without the role. *)
Definition environ_no_role : os_environ :=
  [("AWS_REGION", "us-east-1");
   ("botoConfig", "{}");
   ("DATAPLANE_BUCKET", "dataplane")].

(** A parser that accepts the empty object only, and a [Config] that
    accepts every dict. *)
Definition json_loads (s : string) : result pyval :=
  if String.eqb s "{}" then Ok (PDict []) else Raise ValueError.

Definition Config (v : pyval) : result unit :=
  match v with PDict _ => Ok tt | _ => Raise TypeError end.

(** An environment without endpoint. *)
Definition env_no_endpoint : environment :=
  {| region := "us-east-1";
     mediaconvert_role := "arn:aws:iam::111122223333:role/mediaconvert";
     dataplane_bucket := "dataplane";
     MEDIACONVERT_ENDPOINT := None |}.

(** An endpoint that is no URL. *)
Definition env_bad_endpoint : environment :=
  {| region := "us-east-1";
     mediaconvert_role := "arn:aws:iam::111122223333:role/mediaconvert";
     dataplane_bucket := "dataplane";
     MEDIACONVERT_ENDPOINT := Some "mediaconvert.example" |}.

(** The video is null. *)
Definition event_video_null : WorkflowRecord :=
  Sample.with_input (PDict [("Media", PDict [("Video", PNone)])]) Sample.event.

(** The asset id is a number. *)
Definition event_asset_number : WorkflowRecord :=
  with_asset_id (Some (PInt 42)) Sample.event.

(** The input is a string where a dict is expected. *)
Definition event_input_str : WorkflowRecord :=
  Sample.with_input (PDict [("Media", PStr "videos/a.mp4")]) Sample.event.

(** The bucket is null. *)
Definition event_bucket_null : WorkflowRecord :=
  Sample.with_input
    (PDict [("Media",
             PDict [("Video",
                     PDict [("S3Bucket", PNone);
                            ("S3Key", PStr "videos/a.mp4")])])])
    Sample.event.

(** Neither bucket nor key. *)
Definition event_no_bucket_no_key : WorkflowRecord :=
  Sample.with_input (PDict [("Media", PDict [("Video", PDict [])])]) Sample.event.

(** The scenario's event as another stage may pass it on: an audio entry
    beside the video, more configuration, a status and metadata. *)
Definition event_busy : WorkflowRecord :=
  {| workflow_execution_id := Some "wf-1";
     asset_id := Some (PStr "asset-1");
     input :=
       PDict [("Media",
               PDict [("Audio", PDict [("S3Key", PStr "a.mp3")]);
                      ("Video",
                       PDict [("S3Key", PStr "videos/a.mp4");
                              ("S3Bucket", PStr "input-bucket")])])];
     configuration := [("MediaType", PStr "Video"); ("Enabled", PBool true)];
     status := "Error";
     metadata := [("ThumbnailError", PStr "AccessDenied")] |}.

(** A service whose response has no job id. *)
Definition answering_nothing (c : client) (req : job_request) : remote_result :=
  Returns (PDict [("ResponseMetadata", PDict [])]).

End Sample2.
(** * Lemmas *)

(** ** Concrete runs *)

Example parse_int_examples :
  map parse_int [" 7 "; "-12"; "+7"; "1_000"; "007"; "abc"; "7.5"; "1__0"; "_1"; ""]
  = [Some 7; Some (-12); Some 7; Some 1000; Some 7; None; None; None; None; None].
Proof. reflexivity. Qed.

Example py_int_examples :
  map py_int
    [PInt 12; PBool true; PStr " 12 "; PStr "abc"; PStr "7.5"; PNone;
     PFloat (FFinite 15 (-1)); PFloat (FFinite (-15) (-1));
     PFloat (FFinite 3 2); PFloat (FInf false); PFloat FNaN]
  = [Ok 12; Ok 1; Ok 12; Raise ValueError; Raise ValueError; Raise TypeError;
     Ok 7; Ok (-7); Ok 12; Raise OverflowError; Raise ValueError].
Proof. reflexivity. Qed.

Example run_accepted :
  fst (lambda_handler Sample.env (Sample.accepting "abc123") Sample.event)
  = Ok {| workflow_execution_id := Some "wf-1";
          asset_id := Some (PStr "asset-1");
          input := Sample.video "input-bucket" "videos/a.mp4";
          configuration := [];
          status := "Executing";
          metadata :=
            [("MediaconvertJobId", PStr "abc123");
             ("MediaconvertInputFile", PStr "s3://input-bucket/videos/a.mp4");
             ("AssetId", PStr "asset-1");
             ("WorkflowExecutionId", PStr "wf-1")] |}.
Proof. reflexivity. Qed.

Example run_refused :
  fst (lambda_handler Sample.env (Sample.refusing "AccessDenied") Sample.event)
  = Raise (MasExecutionError
             {| workflow_execution_id := Some "wf-1";
                asset_id := Some (PStr "asset-1");
                input := Sample.video "input-bucket" "videos/a.mp4";
                configuration := [];
                status := "Error";
                metadata := [("ThumbnailError", PStr "AccessDenied")] |}).
Proof. reflexivity. Qed.

Example run_no_bucket :
  lambda_handler Sample.env (Sample.accepting "abc123") Sample.event_no_bucket
  = let out :=
      {| workflow_execution_id := Some "wf-1";
         asset_id := Some (PStr "asset-1");
         input := input Sample.event_no_bucket;
         configuration := [];
         status := "Error";
         metadata :=
           [("ThumbnailError",
             PStr "Missing a required metadata key 'S3Bucket'")] |} in
    (Raise (MasExecutionError out), mkState out []).
Proof. reflexivity. Qed.


Example run_bad_endpoint :
  lambda_handler Sample2.env_bad_endpoint (Sample.accepting "abc123") Sample.event
  = (Raise ValueError, mkState Sample.event []).
Proof. reflexivity. Qed.

Example run_asset_number :
  lambda_handler Sample.env (Sample.accepting "abc123") Sample2.event_asset_number
  = (Raise TypeError, mkState Sample2.event_asset_number []).
Proof. reflexivity. Qed.

Example module_bad_region :
  module_init Sample2.json_loads Sample2.Config Sample2.environ_bad_region
  = Raise ValueError.
Proof. reflexivity. Qed.

Example module_loads :
  module_init Sample2.json_loads Sample2.Config Sample2.environ = Ok Sample.env.
Proof. reflexivity. Qed.

(** ** Strings *)

Lemma append_assoc (a b c : string) : (a ++ b) ++ c = a ++ (b ++ c).
Proof. induction a as [|x a IH]; simpl; [reflexivity | now rewrite IH]. Qed.

Lemma length_append (a b : string) :
  String.length (a ++ b) = (String.length a + String.length b)%nat.
Proof. induction a as [|x a IH]; simpl; [reflexivity | now rewrite IH]. Qed.

Lemma prefix_append (a b : string) : String.prefix a (a ++ b) = true.
Proof.
  induction a as [|x a IH]; simpl.
  - now destruct b.
  - destruct (ascii_dec x x) as [_|N]; [exact IH | now elim N].
Qed.

Lemma prefix_refl (a : string) : String.prefix a a = true.
Proof.
  induction a as [|x a IH]; simpl; [reflexivity|].
  destruct (ascii_dec x x) as [_|N]; [exact IH | now elim N].
Qed.

Lemma append_nonempty_neq (a b : string) : b <> "" -> a ++ b <> a.
Proof.
  intros Hb E. apply (f_equal String.length) in E.
  rewrite length_append in E. destruct b; [now apply Hb | simpl in E; lia].
Qed.

(** ** Dicts *)

Lemma lookup_set_same k v d : Dict.lookup k (Dict.set k v d) = Some v.
Proof.
  induction d as [|[k' v'] d IH]; simpl.
  - now rewrite String.eqb_refl.
  - destruct (String.eqb k k') eqn:E; simpl; rewrite E; [reflexivity | exact IH].
Qed.

Lemma lookup_set_other k k' v d :
  k <> k' -> Dict.lookup k (Dict.set k' v d) = Dict.lookup k d.
Proof.
  intros N. apply String.eqb_neq in N.
  induction d as [|[k'' v''] d IH]; simpl.
  - now rewrite N.
  - destruct (String.eqb k' k'') eqn:E; simpl.
    + apply String.eqb_eq in E. subst k''. now rewrite N.
    + destruct (String.eqb k k''); [reflexivity | exact IH].
Qed.

(** ** The handler and its runs *)

#[local] Arguments job_settings : simpl never.
#[local] Arguments py_getitems : simpl never.
#[local] Arguments py_int : simpl never.
#[local] Arguments Dict.update : simpl never.
#[local] Arguments String.append : simpl never.

Ltac unfold_monad :=
  unfold bind, try_except_KeyError, get_workflow_execution_id, get_asset_id,
    get_input, get_configuration, update_workflow_status,
    add_workflow_metadata, return_output_object, with_object,
    environ_MEDIACONVERT_ENDPOINT, boto3_client_endpoint, create_job, raise,
    lift, ret.

Lemma required_fields_Ok ev w b k :
  required_fields ev = Ok (w, b, k) ->
  workflow_execution_id ev = Some w
  /\ py_getitems (input ev) bucket_keys = Ok b
  /\ py_getitems (input ev) key_keys = Ok k.
Proof.
  unfold required_fields. intros H.
  destruct (workflow_execution_id ev); [|discriminate].
  destruct (py_getitems (input ev) bucket_keys); [|discriminate].
  destruct (py_getitems (input ev) key_keys); [|discriminate].
  now inversion H.
Qed.

Ltac path_condition :=
  unfold required_fields, file_location, position, bucket_keys, key_keys,
    Dict.mem in *;
  cbn in *;
  repeat match goal with
         | H : _ = _ |- _ => rewrite H
         end;
  cbn; try reflexivity; try congruence.

Lemma lambda_handler_run {platform : Platform} env remote ev :
  run env remote ev (lambda_handler env remote ev).
Proof.
  destruct ev as [wf a i cfg s md].
  unfold lambda_handler, lambda_handler_body. unfold_monad. cbn.
  destruct wf as [w|]; cbn.
  2: { now apply run_missing_key. }
  destruct (py_getitems i ["Media"; "Video"; "S3Bucket"]) as [b|e] eqn:Hb; cbn.
  2: { destruct e; cbn;
         first [ apply run_missing_key; path_condition
               | apply run_extraction_raises; path_condition ]. }
  destruct (py_getitems i ["Media"; "Video"; "S3Key"]) as [k|e] eqn:Hk; cbn.
  2: { destruct e; cbn;
         first [ apply run_missing_key; path_condition
               | apply run_extraction_raises; path_condition ]. }
  assert (Hreq : forall a0,
            required_fields (mkWorkflowRecord (Some w) a0 i cfg s md)
            = Ok (w, b, k)) by (intros; path_condition).
  destruct a as [v|]; cbn.
  all: destruct (py_str_add "s3://" b) as [s0|e] eqn:Hs; cbn;
    [ | eapply run_file_location_raises; [apply Hreq | path_condition] ].
  all: destruct (py_str_add (s0 ++ "/") k) as [f|e] eqn:Hf; cbn;
    [ | eapply run_file_location_raises; [apply Hreq | path_condition] ].
  all: assert (Hfl : file_location b k = Ok f) by path_condition.
  all: try (destruct v as [| | | |a| |]); cbn;
    try (eapply run_destination_raises; [apply Hreq | apply Hfl | discriminate]).
  all: rewrite !append_assoc.
  all: match goal with
       | |- run _ _ ?ev _ =>
           assert (Ha : exists a, asset_or_empty ev = PStr a) by (eexists; reflexivity)
       end;
       destruct Ha as [a' Ha].
  all: unfold Dict.mem;
    destruct (position cfg) as [p|e] eqn:Hpos; pose proof Hpos as Hp;
    unfold position in Hp;
    destruct (Dict.lookup "ThumbnailPosition" cfg) as [v|] eqn:Hv; cbn;
    try rewrite Hp; try discriminate; cbn;
    [ | injection Hp as <-
      | eapply run_position_raises; [apply Hreq | apply Hfl | apply Ha | apply Hpos] ].
  all: destruct (MEDIACONVERT_ENDPOINT env) as [url|] eqn:He; cbn;
    [ | eapply run_no_endpoint;
        [apply Hreq | apply Hfl | apply Ha | apply Hpos | apply He] ].
  all: destruct (boto3_client (region env) url) as [failure|] eqn:Hc; cbn;
    [ eapply run_client_raises;
        [apply Hreq | apply Hfl | apply Ha | apply Hpos | apply He | apply Hc] | ].
  all: cbn in Ha; injection Ha as <-.
  all: match goal with
       | |- context [match ?x with Returns _ => _ | Raises _ => _ end] =>
           destruct x as [response|str_e] eqn:Hr; cbn
       end;
    [ | match goal with
        | |- run _ _ ?ev _ =>
            exact (run_submission_raises env remote ev w b k f _ _ url str_e
                     (Hreq _) Hfl eq_refl Hpos He Hc Hr)
        end ].
  all: destruct (py_getitems response ["Job"; "Id"]) as [job_id|e] eqn:Hj; cbn;
    match goal with
    | |- run _ _ ?ev (Ok _, _) =>
        exact (run_executing env remote ev w b k f _ _ url response job_id
                 (Hreq _) Hfl eq_refl Hpos He Hc Hr Hj)
    | |- run _ _ ?ev (Raise _, _) =>
        exact (run_response_raises env remote ev w b k f _ _ url response e
                 (Hreq _) Hfl eq_refl Hpos He Hc Hr Hj)
    end.
Qed.

(** ** What the handler does along each way *)

Lemma file_location_str b k :
  file_location (PStr b) (PStr k) = Ok ("s3://" ++ b ++ "/" ++ k).
Proof.
  unfold file_location, py_str_add.
  now rewrite !append_assoc.
Qed.

Lemma file_location_Ok b k f :
  file_location b k = Ok f ->
  exists sb sk, b = PStr sb /\ k = PStr sk /\ f = "s3://" ++ sb ++ "/" ++ sk.
Proof.
  intros H. destruct b; try discriminate. destruct k; try discriminate.
  rewrite file_location_str in H. injection H as <-. eauto.
Qed.

Lemma is_str_Ok r : is_str r = true -> exists s, r = Ok (PStr s).
Proof. destruct r as [[]|]; try discriminate. eauto. Qed.

Lemma is_ok_Ok {A} (r : result A) : is_ok r = true -> exists v, r = Ok v.
Proof. destruct r; try discriminate. eauto. Qed.

Lemma required_present_fields ev :
  required_present ev = true ->
  exists w b k,
    workflow_execution_id ev = Some w
    /\ py_getitems (input ev) bucket_keys = Ok (PStr b)
    /\ py_getitems (input ev) key_keys = Ok (PStr k)
    /\ required_fields ev = Ok (w, PStr b, PStr k).
Proof.
  unfold required_present, required_fields. intros H.
  apply andb_prop in H as [H Hk]. apply andb_prop in H as [Hw Hb].
  apply is_str_Ok in Hb as [b Hb]. apply is_str_Ok in Hk as [k Hk].
  destruct (workflow_execution_id ev) as [w|]; [|discriminate].
  exists w, b, k. now rewrite Hb, Hk.
Qed.

Lemma asset_typed_str ev :
  asset_typed ev = true -> exists a, asset_or_empty ev = PStr a.
Proof.
  unfold asset_typed. intros H. apply is_str_Ok in H as [a H].
  exists a. congruence.
Qed.

Lemma fields_valid {platform : Platform} ev w b k a p :
  required_fields ev = Ok (w, PStr b, PStr k) ->
  asset_or_empty ev = PStr a ->
  position (configuration ev) = Ok p ->
  valid_event ev = true.
Proof.
  intros Hreq Ha Hpos.
  destruct (required_fields_Ok ev w _ _ Hreq) as (Hw & Hb & Hk).
  unfold valid_event, required_present, asset_typed.
  now rewrite Hw, Hb, Hk, Ha, Hpos.
Qed.

Lemma valid_fields {platform : Platform} ev :
  valid_event ev = true ->
  exists w b k a p,
    required_fields ev = Ok (w, PStr b, PStr k)
    /\ asset_or_empty ev = PStr a
    /\ position (configuration ev) = Ok p.
Proof.
  unfold valid_event. intros Hv.
  apply andb_prop in Hv as [Hv Hpos]. apply andb_prop in Hv as [Hreq Ha].
  apply required_present_fields in Hreq as (w & b & k & _ & _ & _ & Hreq).
  apply asset_typed_str in Ha as [a Ha].
  apply is_ok_Ok in Hpos as [p Hpos]. eauto 8.
Qed.

(** With the required fields, an asset id that is a str, a position, an
    endpoint and a client for it, the job goes out, and the answer of the
    service decides the rest. *)
Lemma handler_submits {platform : Platform} env remote ev w b k a p url :
  required_fields ev = Ok (w, PStr b, PStr k) ->
  asset_or_empty ev = PStr a ->
  position (configuration ev) = Ok p ->
  MEDIACONVERT_ENDPOINT env = Some url ->
  boto3_client (region env) url = None ->
  let f := "s3://" ++ b ++ "/" ++ k in
  let r := remote (the_client env url) (request env a w f p) in
  let st o := mkState o [the_call env url a w f p r] in
  lambda_handler env remote ev =
  match r with
  | Raises str_e =>
      (Raise (MasExecutionError (submission_error_record ev str_e)),
       st (submission_error_record ev str_e))
  | Returns response =>
      match py_getitems response ["Job"; "Id"] with
      | Ok job_id =>
          (Ok (executing_record ev job_id w f), st (executing_record ev job_id w f))
      | Raise e => (Raise e, st ev)
      end
  end.
Proof.
  intros Hreq Ha Hpos He Hc f r st. subst f r st. cbn beta zeta.
  pose proof (file_location_str b k) as Hf.
  destruct (lambda_handler_run env remote ev);
    try congruence;
    match goal with
    | H : required_fields ev = Ok _ |- _ =>
        rewrite Hreq in H; injection H as <- <- <-
    end;
    try congruence;
    try (exfalso; match goal with
                  | Hn : forall a, asset_or_empty ev <> PStr a |- _ =>
                      now apply (Hn a)
                  end).
  all: assert (f = "s3://" ++ b ++ "/" ++ k) as -> by congruence;
       assert (a0 = a) as -> by congruence;
       assert (p0 = p) as -> by congruence;
       assert (url0 = url) as -> by congruence.
  all: match goal with
       | H : _ = Raises _ |- _ => rewrite H
       | H : _ = Returns _ |- _ => rewrite H
       end; try reflexivity.
  all: match goal with
       | H : py_getitems _ _ = _ |- _ => rewrite H
       end; reflexivity.
Qed.

(** A call in the log was made with the required fields, the asset id, a
    position, an endpoint and a client at hand, and it is the only call. *)
Lemma handler_call_inv {platform : Platform} env remote ev call :
  In call (calls (snd (lambda_handler env remote ev))) ->
  exists w b k a p url,
    required_fields ev = Ok (w, PStr b, PStr k)
    /\ asset_or_empty ev = PStr a
    /\ position (configuration ev) = Ok p
    /\ MEDIACONVERT_ENDPOINT env = Some url
    /\ boto3_client (region env) url = None
    /\ call = the_call env url a w ("s3://" ++ b ++ "/" ++ k) p
                (remote (the_client env url)
                   (request env a w ("s3://" ++ b ++ "/" ++ k) p))
    /\ calls (snd (lambda_handler env remote ev)) = [call].
Proof.
  destruct (lambda_handler_run env remote ev); cbn; try tauto.
  all: intros [<-|[]].
  all: match goal with
       | H : file_location _ _ = Ok _ |- _ =>
           apply file_location_Ok in H as (sb & sk & -> & -> & ->)
       end.
  all: exists w, sb, sk, a, p, url; repeat split; trivial.
  all: match goal with
       | H : _ = Raises _ |- _ => now rewrite H
       | H : _ = Returns _ |- _ => now rewrite H
       end.
Qed.

(** Nothing is submitted unless the handler gets as far as the call. *)
Lemma handler_no_call {platform : Platform} env remote ev :
  (forall w b k, required_fields ev <> Ok (w, PStr b, PStr k))
  \/ asset_typed ev = false
  \/ is_ok (position (configuration ev)) = false
  \/ MEDIACONVERT_ENDPOINT env = None
  \/ (exists url failure,
        MEDIACONVERT_ENDPOINT env = Some url
        /\ boto3_client (region env) url = Some failure) ->
  calls (snd (lambda_handler env remote ev)) = [].
Proof.
  intros Hno.
  destruct (calls (snd (lambda_handler env remote ev))) as [|call l] eqn:E;
    [reflexivity|].
  destruct (handler_call_inv env remote ev call)
    as (w & b & k & a & p & url & Hr & Ha & Hp & He & Hc & _).
  { rewrite E. now left. }
  destruct Hno as [Hno|[Hno|[Hno|[Hno|(url' & failure & Hu & Hf)]]]].
  - now elim (Hno w b k).
  - unfold asset_typed in Hno. rewrite Ha in Hno. discriminate.
  - rewrite Hp in Hno. discriminate.
  - congruence.
  - congruence.
Qed.

(** ** Missing fields *)

Lemma absent_KeyError v ks :
  absent v ks = true -> exists key, py_getitems v ks = Raise (KeyError key).
Proof.
  revert v. induction ks as [|k ks IH]; intros v H; [discriminate|].
  cbn in H. destruct v; try discriminate.
  unfold py_getitems; fold py_getitems. unfold py_getitem.
  destruct (Dict.lookup k d) as [x|]; eauto.
Qed.

(** Two fields of the same dict: when one is missing, looking the other up
    finds it or finds a key missing, and goes wrong in no other way. *)
Lemma absent_sibling v pre x y :
  absent v (pre ++ [x]) = true ->
  (exists u, py_getitems v (pre ++ [y]) = Ok u)
  \/ (exists key, py_getitems v (pre ++ [y]) = Raise (KeyError key)).
Proof.
  revert v. induction pre as [|k pre IH]; intros v H.
  - cbn in H. destruct v; try discriminate.
    unfold app, py_getitems, py_getitem.
    destruct (Dict.lookup y d); eauto.
  - cbn in H. destruct v; try discriminate.
    change ((k :: pre) ++ [y])%list with (k :: (pre ++ [y]))%list.
    unfold py_getitems; fold py_getitems. unfold py_getitem.
    destruct (Dict.lookup k d) as [u|]; eauto.
Qed.

Lemma missing_required_KeyError ev :
  missing_required ev = true ->
  exists key,
    required_fields ev = Raise (KeyError key)
    /\ ((key = "WorkflowExecutionId" /\ workflow_execution_id ev = None)
        \/ py_getitems (input ev) bucket_keys = Raise (KeyError key)
        \/ py_getitems (input ev) key_keys = Raise (KeyError key)).
Proof.
  unfold missing_required, required_fields. intros H.
  destruct (workflow_execution_id ev) as [w|]; [|eauto 6].
  cbn [orb] in H. apply orb_prop in H as [H|H].
  - apply absent_KeyError in H as [key H]. rewrite H. eauto.
  - destruct (absent_sibling (input ev) ["Media"; "Video"] "S3Key" "S3Bucket" H)
      as [[u Hu]|[key Hk]].
    + change (["Media"; "Video"] ++ ["S3Bucket"])%list with bucket_keys in Hu.
      rewrite Hu. apply absent_KeyError in H as [key H]. rewrite H. eauto.
    + change (["Media"; "Video"] ++ ["S3Bucket"])%list with bucket_keys in Hk.
      rewrite Hk. eauto.
Qed.

(** ** The settings *)

(** The local variables sit where [variable_paths] says. *)
Lemma settings_variables p t a x f :
  let s := job_settings p t a x f in
  get_at FramerateDenominator_path s = Some (PInt p)
  /\ get_at thumbnail_destination_path s = Some (PStr t)
  /\ get_at audio_destination_path s = Some (PStr a)
  /\ get_at proxy_destination_path s = Some (PStr x)
  /\ get_at hls_destination_path s = Some (PStr x)
  /\ get_at FileInput_path s = Some (PStr f).
Proof. repeat split. Qed.

Lemma settings_numerator p t a x f :
  get_at FramerateNumerator_path (job_settings p t a x f) = Some (PInt 1).
Proof. reflexivity. Qed.

(** Apart from those places the settings are one constant. *)
Lemma settings_constant p t a x f p' t' a' x' f' :
  erase variable_paths (job_settings p t a x f)
  = erase variable_paths (job_settings p' t' a' x' f').
Proof. reflexivity. Qed.

Lemma handler_submits_calls {platform : Platform} env remote ev w b k a p url :
  required_fields ev = Ok (w, PStr b, PStr k) ->
  asset_or_empty ev = PStr a ->
  position (configuration ev) = Ok p ->
  MEDIACONVERT_ENDPOINT env = Some url ->
  boto3_client (region env) url = None ->
  calls (snd (lambda_handler env remote ev))
  = [the_call env url a w ("s3://" ++ b ++ "/" ++ k) p
       (remote (the_client env url)
          (request env a w ("s3://" ++ b ++ "/" ++ k) p))].
Proof.
  intros Hreq Ha Hpos He Hc.
  rewrite (handler_submits env remote ev w b k a p url Hreq Ha Hpos He Hc).
  cbv zeta.
  destruct (remote (the_client env url) _) as [response|str_e];
    [destruct (py_getitems response _)|]; reflexivity.
Qed.

(** ** The handler is the relation *)

Lemma run_unique {platform : Platform} env remote ev r r' :
  run env remote ev r -> run env remote ev r' -> r = r'.
Proof.
  intros Hr Hr'.
  destruct Hr; destruct Hr'; try congruence;
    try (exfalso;
         match goal with
         | Hne : forall key, _ <> KeyError key |- _ => eapply Hne; congruence
         | Hn : forall a, asset_or_empty ev <> PStr a, Ha : asset_or_empty ev = PStr _ |- _ =>
             exact (Hn _ Ha)
         end).
Qed.

Lemma handler_is {platform : Platform} env remote ev r :
  run env remote ev r -> lambda_handler env remote ev = r.
Proof. intros H. exact (run_unique _ _ _ _ _ (lambda_handler_run env remote ev) H). Qed.

(** ** Reading away from a written place *)

Lemma lookup_map_key_same k f d :
  Dict.lookup k (map_key k f d) = option_map f (Dict.lookup k d).
Proof.
  induction d as [|[k' v] d IH]; cbn; [reflexivity|].
  destruct (String.eqb k k') eqn:E; cbn; rewrite E; [reflexivity | exact IH].
Qed.

Lemma lookup_map_key_other k k' f d :
  String.eqb k k' = false ->
  Dict.lookup k (map_key k' f d) = Dict.lookup k d.
Proof.
  intros N. induction d as [|[k'' v] d IH]; cbn; [reflexivity|].
  destruct (String.eqb k' k'') eqn:E; cbn.
  - apply String.eqb_eq in E. subst k''. now rewrite N.
  - destruct (String.eqb k k''); [reflexivity | exact IH].
Qed.

Lemma nth_error_map_nth_same n f l :
  nth_error (map_nth n f l) n = option_map f (nth_error l n).
Proof.
  revert n. induction l as [|x l IH]; intros [|n]; cbn; trivial.
Qed.

Lemma nth_error_map_nth_other n n' f l :
  Nat.eqb n n' = false ->
  nth_error (map_nth n' f l) n = nth_error l n.
Proof.
  revert n n'. induction l as [|x l IH]; intros [|n] [|n'] N; cbn; trivial.
  - discriminate.
  - apply IH. exact N.
Qed.

Lemma get_at_set_at_part p q x v :
  part p q = true -> get_at p (set_at q x v) = get_at p v.
Proof.
  revert q v. induction p as [|s p IH]; intros [|t q] v H; try discriminate.
  cbn in H.
  destruct s as [k|n], t as [k'|n']; cbn in H; destruct v; cbn; trivial.
  - destruct (String.eqb k k') eqn:E.
    + apply String.eqb_eq in E. subst k'.
      rewrite lookup_map_key_same.
      destruct (Dict.lookup k d); cbn; [now apply IH | reflexivity].
    + now rewrite lookup_map_key_other.
  - destruct (Nat.eqb n n') eqn:E.
    + apply Nat.eqb_eq in E. subst n'.
      rewrite nth_error_map_nth_same.
      destruct (nth_error l n); cbn; [now apply IH | reflexivity].
    + now rewrite nth_error_map_nth_other.
Qed.

Lemma get_at_erase p ps v :
  forallb (part p) ps = true -> get_at p (erase ps v) = get_at p v.
Proof.
  unfold erase. revert v. induction ps as [|q ps IH]; intros v H; cbn; trivial.
  cbn in H. apply andb_prop in H as [Hq Hps].
  rewrite IH by exact Hps. now apply get_at_set_at_part.
Qed.

(** A place away from the variable ones holds the same in all settings. *)
Lemma settings_frame p0 t a x f p0' t' a' x' f' p :
  forallb (part p) variable_paths = true ->
  get_at p (job_settings p0 t a x f) = get_at p (job_settings p0' t' a' x' f').
Proof.
  intros H.
  rewrite <- (get_at_erase p variable_paths (job_settings p0 t a x f) H).
  rewrite <- (get_at_erase p variable_paths (job_settings p0' t' a' x' f') H).
  now rewrite (settings_constant p0 t a x f p0' t' a' x' f').
Qed.

Lemma py_int_Raise {platform : Platform} v e :
  py_int v = Raise e -> e = ValueError \/ e = TypeError \/ e = OverflowError.
Proof.
  unfold py_int. destruct v as [| | |[]| | |]; try discriminate;
    try (intros E; injection E as <-; tauto).
  destruct (int_str s); [discriminate|].
  intros E; injection E as <-. tauto.
Qed.

Lemma position_Raise {platform : Platform} cfg e :
  position cfg = Raise e ->
  (exists v, Dict.lookup "ThumbnailPosition" cfg = Some v /\ py_int v = Raise e)
  /\ (e = ValueError \/ e = TypeError \/ e = OverflowError).
Proof.
  unfold position.
  destruct (Dict.lookup "ThumbnailPosition" cfg) as [v|]; [|discriminate].
  intros E. split; [eauto | eapply py_int_Raise; eassumption].
Qed.

Lemma exn_of_client_failure_cases failure :
  exn_of_client_failure failure = ValueError
  \/ exists cls, exn_of_client_failure failure = LibraryError cls.
Proof. destruct failure; cbn; eauto. Qed.

Lemma py_getitems_Raise v ks e :
  py_getitems v ks = Raise e -> (exists key, e = KeyError key) \/ e = TypeError.
Proof.
  revert v. induction ks as [|k ks IH]; intros v; [discriminate|].
  unfold py_getitems; fold py_getitems. unfold py_getitem.
  destruct v; try (intros H; injection H as <-; now right).
  destruct (Dict.lookup k d) as [x|]; [apply IH|].
  intros H; injection H as <-. eauto.
Qed.

Lemma required_fields_Raise ev e :
  required_fields ev = Raise e -> (exists key, e = KeyError key) \/ e = TypeError.
Proof.
  unfold required_fields.
  destruct (workflow_execution_id ev); [|intros H; injection H as <-; eauto].
  destruct (py_getitems (input ev) bucket_keys) eqn:Hb;
    [|intros H; injection H as <-; eapply py_getitems_Raise; eassumption].
  destruct (py_getitems (input ev) key_keys) eqn:Hk; [discriminate|].
  intros H; injection H as <-. eapply py_getitems_Raise; eassumption.
Qed.

Lemma file_location_Raise b k e : file_location b k = Raise e -> e = TypeError.
Proof.
  unfold file_location, py_str_add.
  destruct b; try (intros H; now injection H as <-).
  destruct k; try discriminate; intros H; now injection H as <-.
Qed.

(** The asset id decides nothing but its own place in the strings. *)
Lemma handler_asset_id {platform : Platform} env remote ev :
  asset_id ev = None ->
  lambda_handler env remote (with_asset_id (Some (PStr "")) ev)
  = set_asset_id (Some (PStr "")) (lambda_handler env remote ev).
Proof.
  destruct ev as [wf a i cfg s md]. cbn [asset_id]. intros ->.
  apply handler_is.
  set (ev' := mkWorkflowRecord wf (Some (PStr "")) i cfg s md).
  destruct (lambda_handler_run env remote (mkWorkflowRecord wf None i cfg s md))
    as [key Hreq|e Hreq Hne|w b k e Hreq Hf|w b k f Hreq Hf Hna
       |w b k f a e Hreq Hf Ha Hp
       |w b k f a p Hreq Hf Ha Hp Hnone
       |w b k f a p url failure Hreq Hf Ha Hp Hu Hc
       |w b k f a p url str_e Hreq Hf Ha Hp Hu Hc Hr
       |w b k f a p url response e Hreq Hf Ha Hp Hu Hc Hr Hj
       |w b k f a p url response job_id Hreq Hf Ha Hp Hu Hc Hr Hj];
    unfold set_asset_id; cbn [fst snd operator_object calls].
  - exact (run_missing_key env remote ev' key Hreq).
  - destruct (required_fields_Raise _ _ Hreq) as [[key ->]| ->].
    + exfalso. eapply Hne. reflexivity.
    + exact (run_extraction_raises env remote ev' _ Hreq Hne).
  - pose proof (file_location_Raise _ _ _ Hf) as ->.
    exact (run_file_location_raises env remote ev' w b k _ Hreq Hf).
  - exfalso. now apply (Hna "").
  - destruct (position_Raise _ _ Hp) as (_ & [-> | [-> | ->]]);
      exact (run_position_raises env remote ev' w b k f a _ Hreq Hf Ha Hp).
  - exact (run_no_endpoint env remote ev' w b k f a p Hreq Hf Ha Hp Hnone).
  - destruct failure;
      exact (run_client_raises env remote ev' w b k f a p url _
               Hreq Hf Ha Hp Hu Hc).
  - exact (run_submission_raises env remote ev' w b k f a p url str_e
             Hreq Hf Ha Hp Hu Hc Hr).
  - destruct (py_getitems_Raise _ _ _ Hj) as [[key ->]| ->];
      exact (run_response_raises env remote ev' w b k f a p url response _
               Hreq Hf Ha Hp Hu Hc Hr Hj).
  - exact (run_executing env remote ev' w b k f a p url response job_id
             Hreq Hf Ha Hp Hu Hc Hr Hj).
Qed.

Lemma KeyError_absent v ks key :
  py_getitems v ks = Raise (KeyError key) -> absent v ks = true.
Proof.
  revert v. induction ks as [|k ks IH]; intros v; [discriminate|].
  unfold py_getitems; fold py_getitems. unfold py_getitem.
  destruct v; try discriminate. cbn [absent].
  destruct (Dict.lookup k d) as [x|]; [apply IH | reflexivity].
Qed.

Lemma required_fields_KeyError_missing ev key :
  required_fields ev = Raise (KeyError key) -> missing_required ev = true.
Proof.
  unfold required_fields, missing_required.
  destruct (workflow_execution_id ev); [|reflexivity]. cbn [orb].
  destruct (py_getitems (input ev) bucket_keys) eqn:Hb.
  - destruct (py_getitems (input ev) key_keys) eqn:Hk; [discriminate|].
    intros H; injection H as ->.
    apply KeyError_absent in Hk. rewrite Hk. apply orb_true_r.
  - intros H; injection H as ->.
    apply KeyError_absent in Hb. now rewrite Hb.
Qed.

(** The handler fails before any call, with [MasExecutionError], only when a
    required field is missing. *)
Lemma extraction_failure_missing_required {platform : Platform} env remote ev out :
  lambda_handler env remote ev = (Raise (MasExecutionError out), mkState out []) ->
  missing_required ev = true.
Proof.
  intros Hrun.
  destruct (lambda_handler_run env remote ev)
    as [key Hreq|e Hreq Hne|w b k e Hreq Hf|w b k f Hreq Hf Hna
       |w b k f a e Hreq Hf Ha Hp
       |w b k f a p Hreq Hf Ha Hp Hnone
       |w b k f a p url failure Hreq Hf Ha Hp Hu Hc
       |w b k f a p url str_e Hreq Hf Ha Hp Hu Hc Hr
       |w b k f a p url response e Hreq Hf Ha Hp Hu Hc Hr Hj
       |w b k f a p url response job_id Hreq Hf Ha Hp Hu Hc Hr Hj];
    try discriminate Hrun.
  - now apply required_fields_KeyError_missing with key.
  - destruct (required_fields_Raise _ _ Hreq) as [[key ->]| ->];
      [exfalso; eapply Hne; reflexivity | discriminate Hrun].
  - pose proof (file_location_Raise _ _ _ Hf) as ->. discriminate Hrun.
  - destruct (position_Raise _ _ Hp) as (_ & [-> | [-> | ->]]);
      discriminate Hrun.
  - destruct failure; discriminate Hrun.
Qed.

(** * The claims *)

Lemma lookup_update_1 k v d :
  Dict.lookup k (Dict.update [(k, v)] d) = Some v.
Proof. unfold Dict.update. cbn. apply lookup_set_same. Qed.

Ltac lookup_metadata :=
  unfold Dict.update; cbn [fold_left fst snd];
  repeat (rewrite lookup_set_other by discriminate);
  apply lookup_set_same.

(** ** C1 *)

(** C1 as stated does not hold of every event that lacks the source bucket:
    where the video entry is null there is no bucket to be found, but the
    subscript raises [TypeError], which the [try] of lines 52-59 does not
    catch.  The handler raises it with the record as it came: the status is
    not "Error" and no metadata is attached. *)
Lemma null_video_not_reported :
  let ev := Sample2.event_video_null in
  let r := lambda_handler Sample.env (Sample.accepting "abc123") ev in
  (forall b, py_getitems (input ev) bucket_keys <> Ok b)
  /\ r = (Raise TypeError, mkState ev [])
  /\ status (operator_object (snd r)) = "Started"
  /\ Dict.lookup "ThumbnailError" (metadata (operator_object (snd r))) = None.
Proof. cbv zeta. repeat split. discriminate. Qed.

(** C1, amended.  An event that lacks the workflow execution id, or in
    which a dict on the way to the source bucket or to the source key lacks
    its key ([Media], [Video], [S3Bucket], [S3Key]), makes the handler set
    the status to "Error", attach a [ThumbnailError] that names a key that
    is missing indeed, and raise [MasExecutionError] with that record; no
    call goes to the remote service. *)
Theorem missing_required_field_fails {platform : Platform} env remote ev :
  missing_required ev = true ->
  exists key out,
    lambda_handler env remote ev
    = (Raise (MasExecutionError out), mkState out [])
    /\ status out = "Error"
    /\ Dict.lookup "ThumbnailError" (metadata out)
       = Some (PStr ("Missing a required metadata key '" ++ key ++ "'"))
    /\ ((key = "WorkflowExecutionId" /\ workflow_execution_id ev = None)
        \/ py_getitems (input ev) bucket_keys = Raise (KeyError key)
        \/ py_getitems (input ev) key_keys = Raise (KeyError key)).
Proof.
  intros Hm. apply missing_required_KeyError in Hm as (key & Hreq & Hkey).
  exists key, (missing_key_record ev key).
  split; [|split; [reflexivity | split; [apply lookup_update_1 | exact Hkey]]].
  destruct (lambda_handler_run env remote ev); congruence.
Qed.

Lemma missing_required_field_fails_witness :
  exists key out,
    lambda_handler Sample.env (Sample.accepting "abc123") Sample.event_no_bucket
    = (Raise (MasExecutionError out), mkState out [])
    /\ status out = "Error"
    /\ Dict.lookup "ThumbnailError" (metadata out)
       = Some (PStr ("Missing a required metadata key '" ++ key ++ "'"))
    /\ ((key = "WorkflowExecutionId"
         /\ workflow_execution_id Sample.event_no_bucket = None)
        \/ py_getitems (input Sample.event_no_bucket) bucket_keys
           = Raise (KeyError key)
        \/ py_getitems (input Sample.event_no_bucket) key_keys
           = Raise (KeyError key)).
Proof.
  apply (missing_required_field_fails (platform := Sample.platform) Sample.env (Sample.accepting "abc123")
           Sample.event_no_bucket).
  reflexivity.
Defined.

(** ** C2 *)

(** C2.  For a valid input, every job request that goes out has the
    frame-capture numerator 1, and its denominator is the configured
    [ThumbnailPosition] when there is one (an integer as it stands, any
    other value as [int] converts it) and 7 when there is none; and with the
    endpoint configured and a client made for it, the request does go
    out. *)
Theorem capture_rate {platform : Platform} env remote ev :
  valid_event ev = true ->
  (forall call,
     In call (calls (snd (lambda_handler env remote ev))) ->
     get_at FramerateNumerator_path (Settings (call_request call))
     = Some (PInt 1)
     /\ (forall p,
           Dict.lookup "ThumbnailPosition" (configuration ev) = Some (PInt p) ->
           get_at FramerateDenominator_path (Settings (call_request call))
           = Some (PInt p))
     /\ (forall v p,
           Dict.lookup "ThumbnailPosition" (configuration ev) = Some v ->
           py_int v = Ok p ->
           get_at FramerateDenominator_path (Settings (call_request call))
           = Some (PInt p))
     /\ (Dict.lookup "ThumbnailPosition" (configuration ev) = None ->
         get_at FramerateDenominator_path (Settings (call_request call))
         = Some (PInt 7)))
  /\ (forall url,
        MEDIACONVERT_ENDPOINT env = Some url ->
        boto3_client (region env) url = None ->
        exists call, calls (snd (lambda_handler env remote ev)) = [call]).
Proof.
  intros Hvalid.
  destruct (valid_fields ev Hvalid) as (w & b & k & a & p & Hreq & Ha & Hpos).
  split.
  - intros call Hin.
    destruct (handler_call_inv env remote ev call Hin)
      as (w' & b' & k' & a' & p' & url & _ & _ & Hpos' & _ & _ & -> & _).
    split; [reflexivity|].
    unfold the_call, request; cbn [call_request Settings].
    unfold position in Hpos'.
    repeat split.
    + intros q Hq. rewrite Hq in Hpos'. cbv in Hpos'. now injection Hpos' as <-.
    + intros v q Hv Hq. rewrite Hv, Hq in Hpos'. now injection Hpos' as <-.
    + intros Hn. rewrite Hn in Hpos'. now injection Hpos' as <-.
  - intros url He Hc. eexists.
    exact (handler_submits_calls env remote ev w b k a p url Hreq Ha Hpos He Hc).
Qed.

Lemma capture_rate_witness :
  exists call,
    calls (snd (lambda_handler Sample.env (Sample.accepting "abc123")
                  (Sample.event_position (PInt 12)))) = [call]
    /\ get_at FramerateNumerator_path (Settings (call_request call))
       = Some (PInt 1)
    /\ get_at FramerateDenominator_path (Settings (call_request call))
       = Some (PInt 12).
Proof.
  destruct (capture_rate (platform := Sample.platform) Sample.env (Sample.accepting "abc123")
              (Sample.event_position (PInt 12)) eq_refl)
    as (Hall & Hex).
  destruct (Hex "https://mediaconvert.example" eq_refl eq_refl) as (call & Hc).
  exists call. split; [exact Hc|].
  destruct (Hall call) as (Hn & Hp & _).
  - rewrite Hc. now left.
  - split; [exact Hn|]. apply Hp. reflexivity.
Defined.

(** ** C3 *)

(** C3.  When the [create_job] call returns a response with a job id, the
    handler returns the record with status "Executing" whose metadata hold
    that id under [MediaconvertJobId], the input file location, the asset id
    (the empty string when the event has none) and the workflow execution
    id. *)
Theorem success_records_job {platform : Platform} env remote ev call response job_id :
  In call (calls (snd (lambda_handler env remote ev))) ->
  call_result call = Returns response ->
  py_getitems response ["Job"; "Id"] = Ok job_id ->
  exists out w b k,
    lambda_handler env remote ev = (Ok out, mkState out [call])
    /\ status out = "Executing"
    /\ Dict.lookup "MediaconvertJobId" (metadata out) = Some job_id
    /\ workflow_execution_id ev = Some w
    /\ py_getitems (input ev) bucket_keys = Ok (PStr b)
    /\ py_getitems (input ev) key_keys = Ok (PStr k)
    /\ Dict.lookup "MediaconvertInputFile" (metadata out)
       = Some (PStr ("s3://" ++ b ++ "/" ++ k))
    /\ (forall a, asset_id ev = Some a ->
          Dict.lookup "AssetId" (metadata out) = Some a)
    /\ (asset_id ev = None ->
          Dict.lookup "AssetId" (metadata out) = Some (PStr ""))
    /\ Dict.lookup "WorkflowExecutionId" (metadata out) = Some (PStr w).
Proof.
  intros Hin Hres Hjob.
  destruct (handler_call_inv env remote ev call Hin)
    as (w & b & k & a & p & url & Hreq & Ha & Hpos & He & Hc & Hcall & _).
  pose proof (handler_submits env remote ev w b k a p url Hreq Ha Hpos He Hc)
    as Hrun.
  cbv zeta in Hrun.
  rewrite Hcall in Hres. cbn in Hres. rewrite Hres, Hjob in Hrun.
  rewrite <- Hres, <- Hcall in Hrun.
  destruct (required_fields_Ok ev w _ _ Hreq) as (Hw & Hb & Hk).
  exists (executing_record ev job_id w ("s3://" ++ b ++ "/" ++ k)), w, b, k.
  split; [exact Hrun|]. split; [reflexivity|].
  unfold executing_record, attach; cbn [metadata].
  repeat split; trivial; try lookup_metadata.
  - intros a' Ha'. unfold asset_or_empty. rewrite Ha'. lookup_metadata.
  - intros Ha'. unfold asset_or_empty. rewrite Ha'. lookup_metadata.
Qed.

Lemma success_records_job_witness :
  exists out,
    fst (lambda_handler Sample.env (Sample.accepting "abc123") Sample.event)
    = Ok out
    /\ status out = "Executing"
    /\ Dict.lookup "MediaconvertJobId" (metadata out) = Some (PStr "abc123").
Proof.
  destruct (success_records_job (platform := Sample.platform) Sample.env (Sample.accepting "abc123")
              Sample.event
              (the_call Sample.env "https://mediaconvert.example" "asset-1"
                 "wf-1" "s3://input-bucket/videos/a.mp4" 7
                 (Returns (PDict [("Job", PDict [("Id", PStr "abc123")])])))
              (PDict [("Job", PDict [("Id", PStr "abc123")])])
              (PStr "abc123"))
    as (out & w & b & k & Hrun & Hst & Hid & _).
  - left. reflexivity.
  - reflexivity.
  - reflexivity.
  - exists out. rewrite Hrun. repeat split; assumption.
Defined.

(** ** C4 *)

(** C4.  When the [create_job] call raises, whatever the error, the handler
    sets the status to "Error", attaches the string form of the error as
    [ThumbnailError], and raises [MasExecutionError] with that record. *)
Theorem submission_error_fails {platform : Platform} env remote ev call str_e :
  In call (calls (snd (lambda_handler env remote ev))) ->
  call_result call = Raises str_e ->
  exists out,
    lambda_handler env remote ev
    = (Raise (MasExecutionError out), mkState out [call])
    /\ status out = "Error"
    /\ Dict.lookup "ThumbnailError" (metadata out) = Some (PStr str_e).
Proof.
  intros Hin Hres.
  destruct (handler_call_inv env remote ev call Hin)
    as (w & b & k & a & p & url & Hreq & Ha & Hpos & He & Hc & Hcall & _).
  pose proof (handler_submits env remote ev w b k a p url Hreq Ha Hpos He Hc)
    as Hrun.
  cbv zeta in Hrun.
  rewrite Hcall in Hres. cbn in Hres. rewrite Hres in Hrun.
  rewrite <- Hres, <- Hcall in Hrun.
  exists (submission_error_record ev str_e).
  split; [exact Hrun|]. split; [reflexivity | apply lookup_update_1].
Qed.

Lemma submission_error_fails_witness :
  exists out,
    fst (lambda_handler Sample.env (Sample.refusing "AccessDenied") Sample.event)
    = Raise (MasExecutionError out)
    /\ status out = "Error"
    /\ Dict.lookup "ThumbnailError" (metadata out) = Some (PStr "AccessDenied").
Proof.
  destruct (submission_error_fails (platform := Sample.platform) Sample.env (Sample.refusing "AccessDenied")
              Sample.event
              (the_call Sample.env "https://mediaconvert.example" "asset-1"
                 "wf-1" "s3://input-bucket/videos/a.mp4" 7
                 (Raises "AccessDenied"))
              "AccessDenied")
    as (out & Hrun & Hst & Herr).
  - left. reflexivity.
  - reflexivity.
  - exists out. rewrite Hrun. repeat split; assumption.
Defined.

(** ** C5 *)

(** C5 as stated does not hold of every event without asset id: one that
    lacks the source bucket as well is stopped by the check of the required
    fields, and nothing is submitted. *)
Lemma absent_asset_id_not_submitted :
  let ev := Sample.event_no_asset_no_bucket in
  let r := lambda_handler Sample.env (Sample.accepting "abc123") ev in
  asset_id ev = None
  /\ calls (snd r) = []
  /\ exists out, fst r = Raise (MasExecutionError out) /\ status out = "Error".
Proof.
  cbv zeta. split; [reflexivity|]. split; [reflexivity|].
  eexists. split; reflexivity.
Qed.

(** C5, amended.  An event without asset id that is valid otherwise, with
    the endpoint configured and a client made for it: the job request goes
    out, and its destination prefixes have the empty string where the asset
    id would stand.  Whatever the rest of the event and of the environment,
    the event is handled as the same event with the empty string for asset
    id. *)
Theorem absent_asset_id_tolerated {platform : Platform} env remote ev url :
  asset_id ev = None ->
  valid_event ev = true ->
  MEDIACONVERT_ENDPOINT env = Some url ->
  boto3_client (region env) url = None ->
  (exists call w,
     calls (snd (lambda_handler env remote ev)) = [call]
     /\ workflow_execution_id ev = Some w
     /\ get_at thumbnail_destination_path (Settings (call_request call))
        = Some (PStr ("s3://" ++ dataplane_bucket env ++ "/"
                        ++ "private/assets/" ++ "" ++ "/"))
     /\ get_at audio_destination_path (Settings (call_request call))
        = Some (PStr ("s3://" ++ dataplane_bucket env ++ "/"
                        ++ "private/assets/" ++ "" ++ "/workflows/"
                        ++ w ++ "/"))
     /\ get_at proxy_destination_path (Settings (call_request call))
        = Some (PStr ("s3://" ++ dataplane_bucket env ++ "/"
                        ++ "private/assets/" ++ "" ++ "/"))
     /\ get_at hls_destination_path (Settings (call_request call))
        = Some (PStr ("s3://" ++ dataplane_bucket env ++ "/"
                        ++ "private/assets/" ++ "" ++ "/")))
  /\ lambda_handler env remote (with_asset_id (Some (PStr "")) ev)
     = set_asset_id (Some (PStr "")) (lambda_handler env remote ev).
Proof.
  intros Hnone Hv He Hc.
  split; [|now apply handler_asset_id].
  destruct (valid_fields ev Hv) as (w & b & k & a & p & Hreq & Ha & Hpos).
  destruct (required_fields_Ok ev w _ _ Hreq) as (Hw & _ & _).
  assert (a = "") as ->.
  { unfold asset_or_empty in Ha. rewrite Hnone in Ha. congruence. }
  eexists. exists w.
  split;
    [exact (handler_submits_calls env remote ev w b k "" p url
              Hreq Ha Hpos He Hc)|].
  split; [exact Hw|].
  unfold the_call, request, asset_prefix; cbn [call_request Settings].
  repeat split.
Qed.

Lemma absent_asset_id_tolerated_witness :
  exists call,
    calls (snd (lambda_handler Sample.env (Sample.accepting "abc123")
                  (Sample.without_asset_id Sample.event))) = [call]
    /\ get_at thumbnail_destination_path (Settings (call_request call))
       = Some (PStr "s3://dataplane/private/assets//")
    /\ get_at audio_destination_path (Settings (call_request call))
       = Some (PStr "s3://dataplane/private/assets//workflows/wf-1/").
Proof.
  destruct (absent_asset_id_tolerated (platform := Sample.platform) Sample.env (Sample.accepting "abc123")
              (Sample.without_asset_id Sample.event)
              "https://mediaconvert.example")
    as ((call & w & Hc & Hw & Ht & Ha & _) & _);
    [reflexivity | reflexivity | reflexivity | reflexivity |].
  injection Hw as <-.
  exists call. repeat split; assumption.
Defined.

(** ** C6 *)

(** C6.  The scenario: bucket "input-bucket", key "videos/a.mp4", workflow
    id "wf-1", asset id "asset-1", no thumbnail position.  In the job
    request that goes out, the thumbnail and the proxy-and-streaming
    destinations are "s3://" + dataplane bucket + "/private/assets/asset-1/",
    the audio destination is that prefix followed by "workflows/wf-1/", and
    the capture denominator is 7; with the endpoint configured and a client
    made for it, the request does go out. *)
Theorem scenario_destinations {platform : Platform} env remote ev :
  workflow_execution_id ev = Some "wf-1" ->
  asset_id ev = Some (PStr "asset-1") ->
  py_getitems (input ev) bucket_keys = Ok (PStr "input-bucket") ->
  py_getitems (input ev) key_keys = Ok (PStr "videos/a.mp4") ->
  Dict.lookup "ThumbnailPosition" (configuration ev) = None ->
  let d := "s3://" ++ dataplane_bucket env ++ "/private/assets/asset-1/" in
  (forall call,
     In call (calls (snd (lambda_handler env remote ev))) ->
     exists t a x,
       get_at thumbnail_destination_path (Settings (call_request call))
       = Some (PStr t)
       /\ get_at audio_destination_path (Settings (call_request call))
          = Some (PStr a)
       /\ get_at proxy_destination_path (Settings (call_request call))
          = Some (PStr x)
       /\ get_at hls_destination_path (Settings (call_request call))
          = Some (PStr x)
       /\ String.prefix d t = true
       /\ String.prefix d a = true
       /\ String.prefix d x = true
       /\ t = d /\ x = d /\ a = d ++ "workflows/wf-1/"
       /\ get_at FramerateDenominator_path (Settings (call_request call))
          = Some (PInt 7)
       /\ get_at FileInput_path (Settings (call_request call))
          = Some (PStr "s3://input-bucket/videos/a.mp4"))
  /\ (forall url,
        MEDIACONVERT_ENDPOINT env = Some url ->
        boto3_client (region env) url = None ->
        exists call, calls (snd (lambda_handler env remote ev)) = [call]).
Proof.
  intros Hw Ha Hb Hk Hn d.
  assert (Hasset : asset_or_empty ev = PStr "asset-1").
  { unfold asset_or_empty. now rewrite Ha. }
  assert (Hreq : required_fields ev
                 = Ok ("wf-1", PStr "input-bucket", PStr "videos/a.mp4")).
  { unfold required_fields. now rewrite Hw, Hb, Hk. }
  assert (Hpos : position (configuration ev) = Ok 7).
  { unfold position. now rewrite Hn. }
  split.
  - intros call Hin.
    destruct (handler_call_inv env remote ev call Hin)
      as (w & b & k & a & p & url & Hreq' & Ha' & Hpos' & _ & _ & -> & _).
    rewrite Hreq in Hreq'. injection Hreq' as <- <- <-.
    rewrite Hasset in Ha'. injection Ha' as <-.
    rewrite Hpos in Hpos'. injection Hpos' as <-.
    exists d, (d ++ "workflows/wf-1/"), d.
    assert (Haudio :
              "s3://" ++ dataplane_bucket env ++ "/" ++ "private/assets/"
                ++ "asset-1" ++ "/workflows/" ++ "wf-1" ++ "/"
              = d ++ "workflows/wf-1/").
    { subst d. now rewrite !append_assoc. }
    unfold the_call, request, asset_prefix; cbn [call_request Settings].
    rewrite Haudio.
    repeat split; first [apply prefix_append | apply prefix_refl].
  - intros url He Hc. eexists.
    exact (handler_submits_calls env remote ev _ _ _ _ _ url
             Hreq Hasset Hpos He Hc).
Qed.

Lemma scenario_destinations_witness :
  exists call,
    calls (snd (lambda_handler Sample.env (Sample.accepting "abc123")
                  Sample.event)) = [call]
    /\ get_at thumbnail_destination_path (Settings (call_request call))
       = Some (PStr "s3://dataplane/private/assets/asset-1/")
    /\ get_at audio_destination_path (Settings (call_request call))
       = Some (PStr "s3://dataplane/private/assets/asset-1/workflows/wf-1/")
    /\ get_at proxy_destination_path (Settings (call_request call))
       = Some (PStr "s3://dataplane/private/assets/asset-1/")
    /\ get_at FramerateDenominator_path (Settings (call_request call))
       = Some (PInt 7).
Proof.
  destruct (scenario_destinations (platform := Sample.platform) Sample.env (Sample.accepting "abc123")
              Sample.event eq_refl eq_refl eq_refl eq_refl eq_refl)
    as (Hall & Hex).
  destruct (Hex "https://mediaconvert.example" eq_refl eq_refl) as (call & Hc).
  exists call. split; [exact Hc|].
  destruct (Hall call)
    as (t & a & x & Ht & Ha & Hx & _ & _ & _ & _ & -> & -> & -> & Hd & _).
  - rewrite Hc. now left.
  - repeat split; assumption.
Defined.

(** ** C9 *)

(** C9.  In every job request that the handler sends, the thumbnail
    destination and the proxy-and-streaming destination are the same string,
    the prefix "s3://" + dataplane bucket + "/private/assets/" + asset id +
    "/", and the audio destination is that prefix followed by "workflows/" +
    workflow id + "/", hence a different string. *)
Theorem destinations_related {platform : Platform} env remote ev call :
  In call (calls (snd (lambda_handler env remote ev))) ->
  exists d w a,
    workflow_execution_id ev = Some w
    /\ asset_or_empty ev = PStr a
    /\ d = "s3://" ++ dataplane_bucket env ++ "/" ++ "private/assets/"
             ++ a ++ "/"
    /\ get_at thumbnail_destination_path (Settings (call_request call))
       = Some (PStr d)
    /\ get_at proxy_destination_path (Settings (call_request call))
       = Some (PStr d)
    /\ get_at hls_destination_path (Settings (call_request call))
       = Some (PStr d)
    /\ get_at audio_destination_path (Settings (call_request call))
       = Some (PStr (d ++ "workflows/" ++ w ++ "/"))
    /\ d ++ "workflows/" ++ w ++ "/" <> d.
Proof.
  intros Hin.
  destruct (handler_call_inv env remote ev call Hin)
    as (w & b & k & a & p & url & Hreq & Ha & _ & _ & _ & -> & _).
  destruct (required_fields_Ok ev w _ _ Hreq) as (Hw & _ & _).
  exists (asset_prefix env a), w, a.
  split; [exact Hw|]. split; [exact Ha|]. split; [reflexivity|].
  unfold the_call, request; cbn [call_request Settings].
  repeat split.
  - unfold asset_prefix. now rewrite !append_assoc.
  - apply append_nonempty_neq. discriminate.
Qed.

Lemma destinations_related_witness :
  let call :=
    the_call Sample.env "https://mediaconvert.example" "asset-1"
      "wf-1" "s3://input-bucket/videos/a.mp4" 7 (Raises "AccessDenied") in
  In call (calls (snd (lambda_handler Sample.env
                         (Sample.refusing "AccessDenied") Sample.event)))
  /\ exists d,
       get_at thumbnail_destination_path (Settings (call_request call))
       = Some (PStr d)
       /\ get_at proxy_destination_path (Settings (call_request call))
          = Some (PStr d)
       /\ get_at audio_destination_path (Settings (call_request call))
          = Some (PStr (d ++ "workflows/" ++ "wf-1" ++ "/")).
Proof.
  cbv zeta.
  assert (Hin : In (the_call Sample.env "https://mediaconvert.example"
                      "asset-1" "wf-1"
                      "s3://input-bucket/videos/a.mp4" 7 (Raises "AccessDenied"))
                  (calls (snd (lambda_handler Sample.env
                                 (Sample.refusing "AccessDenied") Sample.event))))
    by (left; reflexivity).
  split; [exact Hin|].
  destruct (destinations_related (platform := Sample.platform) Sample.env (Sample.refusing "AccessDenied")
              Sample.event _ Hin)
    as (d & w & a & Hw & _ & _ & Ht & Hx & _ & Ha & _).
  injection Hw as <-.
  exists d. repeat split; assumption.
Defined.

(** ** C10 *)

(** With a thumbnail position that [int] cannot convert, no call goes to
    the remote service and the handler does not return normally, whatever
    the rest of the event. *)
Lemma unconvertible_position_no_call {platform : Platform} env remote ev v e :
  Dict.lookup "ThumbnailPosition" (configuration ev) = Some v ->
  py_int v = Raise e ->
  calls (snd (lambda_handler env remote ev)) = []
  /\ (forall out, fst (lambda_handler env remote ev) <> Ok out).
Proof.
  intros Hv He.
  assert (Hpos : position (configuration ev) = Raise e).
  { unfold position. now rewrite Hv. }
  split.
  - apply handler_no_call. right; right; left. now rewrite Hpos.
  - intros out. destruct (lambda_handler_run env remote ev); cbn; congruence.
Qed.

(** C10 as stated does not hold of every event with an unconvertible
    thumbnail position: one that lacks the source bucket is stopped by the
    check of the required fields, which sets the status to "Error" and
    attaches [ThumbnailError]; the conversion is never tried. *)
Lemma unconvertible_position_after_missing_field :
  let ev := Sample.event_no_bucket_position (PStr "abc") in
  let r := lambda_handler Sample.env (Sample.accepting "abc123") ev in
  Dict.lookup "ThumbnailPosition" (configuration ev) = Some (PStr "abc")
  /\ py_int (PStr "abc") = Raise ValueError
  /\ status (operator_object (snd r)) = "Error"
  /\ Dict.lookup "ThumbnailError" (metadata (operator_object (snd r)))
     = Some (PStr "Missing a required metadata key 'S3Bucket'")
  /\ fst r = Raise (MasExecutionError (operator_object (snd r))).
Proof. cbv zeta. repeat split. Qed.

(** C10, amended.  With the required fields there (bucket and key being
    strs), an asset id that is a str or absent, and a [ThumbnailPosition]
    for which [int] raises, that exception leaves the handler as it was
    raised, before any call to the remote service, the record untouched: no
    status "Error", no metadata.  What [int] converts and what it rejects is
    the interpreter's affair and is not fixed here. *)
Theorem unconvertible_position_raises {platform : Platform} env remote ev v e :
  required_present ev = true ->
  asset_typed ev = true ->
  Dict.lookup "ThumbnailPosition" (configuration ev) = Some v ->
  py_int v = Raise e ->
  lambda_handler env remote ev = (Raise e, mkState ev []).
Proof.
  intros Hreq Ha Hv He.
  assert (Hpos : position (configuration ev) = Raise e).
  { unfold position. now rewrite Hv. }
  apply required_present_fields in Hreq as (w & b & k & _ & _ & _ & Hreq).
  apply asset_typed_str in Ha as [a Ha].
  apply handler_is.
  exact (run_position_raises env remote ev w _ _ _ a e
           Hreq (file_location_str b k) Ha Hpos).
Qed.

Lemma unconvertible_position_raises_witness :
  lambda_handler Sample.env (Sample.accepting "abc123")
    (Sample.event_position (PFloat (FInf false)))
  = (Raise OverflowError,
     mkState (Sample.event_position (PFloat (FInf false))) []).
Proof.
  apply (unconvertible_position_raises (platform := Sample.platform) Sample.env (Sample.accepting "abc123")
           (Sample.event_position (PFloat (FInf false))) (PFloat (FInf false))
           OverflowError); reflexivity.
Defined.

(** ** C7 *)

(** C7 as stated does not hold: an unconvertible thumbnail position ends
    the invocation in neither of the two states; the handler raises
    [ValueError] and the status is the one the event came with. *)
Lemma third_outcome :
  let r := lambda_handler Sample.env (Sample.accepting "abc123")
             (Sample.event_position (PStr "abc")) in
  fst r = Raise ValueError
  /\ status (operator_object (snd r)) = "Started"
  /\ ~ (returns_executing r \/ fails_with_error r).
Proof.
  cbv zeta. split; [reflexivity|]. split; [reflexivity|].
  intros [(out & H & _)|(e & _ & H)]; discriminate.
Qed.

(** C7, amended.  When bucket and key are each a str or missing, the asset
    id is a str or absent, the thumbnail position, if configured, converts
    to an integer, the endpoint is configured and a client is made for it,
    and the responses of the service carry a job id, the invocation ends in
    exactly one of two states: the handler returns the record with status
    "Executing", or it raises [MasExecutionError] with the record, whose
    status is "Error". *)
Theorem two_outcomes {platform : Platform} env remote ev url :
  fields_typed ev = true ->
  asset_typed ev = true ->
  is_ok (position (configuration ev)) = true ->
  MEDIACONVERT_ENDPOINT env = Some url ->
  boto3_client (region env) url = None ->
  (forall c req response,
     remote c req = Returns response ->
     is_ok (py_getitems response ["Job"; "Id"]) = true) ->
  let r := lambda_handler env remote ev in
  ((exists out, r = (Ok out, mkState out (calls (snd r)))
                /\ status out = "Executing")
   \/ (exists out, r = (Raise (MasExecutionError out), mkState out (calls (snd r)))
                   /\ status out = "Error"))
  /\ (returns_executing r \/ fails_with_error r)
  /\ ~ (returns_executing r /\ fails_with_error r).
Proof.
  intros Hty Hasset Hpos He Hclient Hresp r.
  assert (Hexcl : ~ (returns_executing r /\ fails_with_error r)).
  { intros [(out & H1 & _) (e & H2 & _)]. congruence. }
  assert (Hmain :
            (exists out, r = (Ok out, mkState out (calls (snd r)))
                         /\ status out = "Executing")
            \/ (exists out,
                  r = (Raise (MasExecutionError out), mkState out (calls (snd r)))
                  /\ status out = "Error")).
  { subst r. unfold fields_typed in Hty. apply andb_prop in Hty as [Hb Hk].
    destruct (lambda_handler_run env remote ev)
      as [key Hreq|e Hreq Hne|w b k e Hreq Hf|w b k f Hreq Hf Hna
         |w b k f a e Hreq Hf Ha Hp
         |w b k f a p Hreq Hf Ha Hp Hnone
         |w b k f a p url' failure Hreq Hf Ha Hp Hu Hc
         |w b k f a p url' str_e Hreq Hf Ha Hp Hu Hc Hr
         |w b k f a p url' response e Hreq Hf Ha Hp Hu Hc Hr Hj
         |w b k f a p url' response job_id Hreq Hf Ha Hp Hu Hc Hr Hj];
      cbn [snd calls].
    - right. eexists. split; reflexivity.
    - exfalso. unfold required_fields in Hreq.
      destruct (workflow_execution_id ev);
        [|injection Hreq as <-; eapply Hne; reflexivity].
      destruct (py_getitems (input ev) bucket_keys) as [[]|[]]; try discriminate;
        try (injection Hreq as <-; eapply Hne; reflexivity).
      destruct (py_getitems (input ev) key_keys) as [[]|[]]; try discriminate;
        injection Hreq as <-; eapply Hne; reflexivity.
    - exfalso. apply required_fields_Ok in Hreq as (_ & Hb' & Hk').
      rewrite Hb' in Hb. rewrite Hk' in Hk.
      destruct b; try discriminate; destruct k; discriminate.
    - exfalso. apply asset_typed_str in Hasset as [a Ha]. exact (Hna a Ha).
    - rewrite Hp in Hpos. discriminate.
    - congruence.
    - congruence.
    - right. eexists. split; reflexivity.
    - apply Hresp in Hr. rewrite Hj in Hr. discriminate.
    - left. eexists. split; reflexivity. }
  split; [exact Hmain|]. split; [|exact Hexcl].
  destruct Hmain as [(out & -> & Hs)|(out & -> & Hs)].
  - left. exists out. now split.
  - right. exists (MasExecutionError out). now split.
Qed.

Lemma two_outcomes_witness :
  let r := lambda_handler Sample.env (Sample.accepting "abc123")
             Sample.event in
  returns_executing r \/ fails_with_error r.
Proof.
  apply (two_outcomes (platform := Sample.platform) Sample.env (Sample.accepting "abc123") Sample.event
           "https://mediaconvert.example"); try reflexivity.
  intros c req response E. injection E as <-. reflexivity.
Defined.

(** ** C8 *)

(** C8.  The job requests that go out for two valid inputs, whatever the
    service answers, go through the same client with the same role, and
    their settings are the same once the capture denominator, the
    destinations and the input file location are blanked; every place of the
    settings away from those holds the same value in both.  With the
    endpoint configured and a client made for it, both requests do go
    out. *)
Theorem requests_differ_in_variables_only {platform : Platform} env remote1 remote2 ev1 ev2 :
  valid_event ev1 = true ->
  valid_event ev2 = true ->
  (forall call1 call2,
     In call1 (calls (snd (lambda_handler env remote1 ev1))) ->
     In call2 (calls (snd (lambda_handler env remote2 ev2))) ->
     call_client call1 = call_client call2
     /\ Role (call_request call1) = Role (call_request call2)
     /\ erase variable_paths (Settings (call_request call1))
        = erase variable_paths (Settings (call_request call2))
     /\ (forall p,
           forallb (part p) variable_paths = true ->
           get_at p (Settings (call_request call1))
           = get_at p (Settings (call_request call2))))
  /\ (forall url,
        MEDIACONVERT_ENDPOINT env = Some url ->
        boto3_client (region env) url = None ->
        exists call1 call2,
          calls (snd (lambda_handler env remote1 ev1)) = [call1]
          /\ calls (snd (lambda_handler env remote2 ev2)) = [call2]).
Proof.
  intros Hv1 Hv2.
  destruct (valid_fields ev1 Hv1) as (w1 & b1 & k1 & a1 & p1 & Hreq1 & Ha1 & Hpos1).
  destruct (valid_fields ev2 Hv2) as (w2 & b2 & k2 & a2 & p2 & Hreq2 & Ha2 & Hpos2).
  split.
  - intros call1 call2 Hin1 Hin2.
    destruct (handler_call_inv env remote1 ev1 call1 Hin1)
      as (? & ? & ? & ? & ? & url1 & _ & _ & _ & He1 & _ & -> & _).
    destruct (handler_call_inv env remote2 ev2 call2 Hin2)
      as (? & ? & ? & ? & ? & url2 & _ & _ & _ & He2 & _ & -> & _).
    assert (url2 = url1) as -> by congruence.
    unfold the_call, request; cbn [call_client call_request Role Settings].
    split; [reflexivity|]. split; [reflexivity|].
    split; [apply settings_constant|].
    intros p Hp. now apply settings_frame.
  - intros url He Hc. eexists. eexists. split.
    + exact (handler_submits_calls env remote1 ev1 _ _ _ _ _ url
               Hreq1 Ha1 Hpos1 He Hc).
    + exact (handler_submits_calls env remote2 ev2 _ _ _ _ _ url
               Hreq2 Ha2 Hpos2 He Hc).
Qed.

Lemma requests_differ_in_variables_only_witness :
  exists call1 call2,
    calls (snd (lambda_handler Sample.env (Sample.accepting "abc123")
                  Sample.event)) = [call1]
    /\ calls (snd (lambda_handler Sample.env (Sample.refusing "AccessDenied")
                     (Sample.without_asset_id
                        (Sample.event_position (PInt 12))))) = [call2]
    /\ erase variable_paths (Settings (call_request call1))
       = erase variable_paths (Settings (call_request call2))
    /\ get_at [Key "OutputGroups"; Idx 2; Key "Outputs"; Idx 0;
               Key "VideoDescription"; Key "CodecSettings";
               Key "H264Settings"; Key "Bitrate"]
         (Settings (call_request call1))
       = get_at [Key "OutputGroups"; Idx 2; Key "Outputs"; Idx 0;
                 Key "VideoDescription"; Key "CodecSettings";
                 Key "H264Settings"; Key "Bitrate"]
           (Settings (call_request call2)).
Proof.
  destruct (requests_differ_in_variables_only (platform := Sample.platform) Sample.env
              (Sample.accepting "abc123") (Sample.refusing "AccessDenied")
              Sample.event
              (Sample.without_asset_id (Sample.event_position (PInt 12)))
              eq_refl eq_refl)
    as (Hall & Hex).
  destruct (Hex "https://mediaconvert.example" eq_refl eq_refl)
    as (call1 & call2 & Hc1 & Hc2).
  exists call1, call2. split; [exact Hc1|]. split; [exact Hc2|].
  destruct (Hall call1 call2) as (_ & _ & He & Hp).
  - rewrite Hc1. now left.
  - rewrite Hc2. now left.
  - split; [exact He|]. apply Hp. reflexivity.
Defined.

(** * Further properties of the handler *)

(** X1.  An invocation calls the remote service once at most.  It calls it
    exactly when the event is valid, the endpoint is configured and a client
    is made for it; the call goes through that client, for the configured
    region and endpoint, with the configured role; nothing is tried again
    after a failure. *)
Theorem one_call_at_most {platform : Platform} env remote ev :
  (length (calls (snd (lambda_handler env remote ev))) <= 1)%nat
  /\ (calls (snd (lambda_handler env remote ev)) <> []
      <-> valid_event ev = true
          /\ exists url,
               MEDIACONVERT_ENDPOINT env = Some url
               /\ boto3_client (region env) url = None)
  /\ (forall call,
        In call (calls (snd (lambda_handler env remote ev))) ->
        MEDIACONVERT_ENDPOINT env = Some (endpoint_url (call_client call))
        /\ boto3_client (region env) (endpoint_url (call_client call)) = None
        /\ region_name (call_client call) = region env
        /\ Role (call_request call) = mediaconvert_role env
        /\ call_result call = remote (call_client call) (call_request call)).
Proof.
  split; [|split].
  - destruct (lambda_handler_run env remote ev); cbn; lia.
  - split.
    + intros Hne.
      destruct (calls (snd (lambda_handler env remote ev))) as [|call l] eqn:E;
        [now elim Hne|].
      destruct (handler_call_inv env remote ev call)
        as (w & b & k & a & p & url & Hreq & Ha & Hpos & He & Hc & _).
      { rewrite E. now left. }
      split; [eapply fields_valid; eassumption | eauto].
    + intros [Hv (url & Hu & Hc)].
      destruct (valid_fields ev Hv) as (w & b & k & a & p & Hreq & Ha & Hpos).
      rewrite (handler_submits_calls env remote ev w b k a p url
                 Hreq Ha Hpos Hu Hc).
      discriminate.
  - intros call Hin.
    destruct (handler_call_inv env remote ev call Hin)
      as (w & b & k & a & p & url & _ & _ & _ & He & Hc & -> & _).
    cbn. now rewrite He.
Qed.

(** X2.  An exception other than [MasExecutionError] that leaves the handler
    leaves the record as the event had it: no status, no metadata is
    written on the way to an unhandled error. *)
Theorem unhandled_exception_record_untouched {platform : Platform} env remote ev e :
  fst (lambda_handler env remote ev) = Raise e ->
  (forall out, e <> MasExecutionError out) ->
  operator_object (snd (lambda_handler env remote ev)) = ev.
Proof.
  intros Hrun Hne.
  destruct (lambda_handler_run env remote ev); cbn in *; trivial;
    try discriminate Hrun;
    injection Hrun as <-; exfalso; eapply Hne; reflexivity.
Qed.

Lemma unhandled_exception_record_untouched_witness :
  operator_object
    (snd (lambda_handler Sample.env (Sample.accepting "abc123")
            (Sample.event_position (PStr "abc"))))
  = Sample.event_position (PStr "abc").
Proof.
  apply (unhandled_exception_record_untouched (platform := Sample.platform) Sample.env
           (Sample.accepting "abc123") (Sample.event_position (PStr "abc"))
           ValueError eq_refl).
  intros out E. discriminate E.
Defined.

(** X3.  The handler returns normally only after a job was created: the
    event is valid, exactly one call went out, its response carries a job
    id, and the record returned has status "Executing" and that id. *)
Theorem normal_return_job_created {platform : Platform} env remote ev out :
  fst (lambda_handler env remote ev) = Ok out ->
  exists call response job_id,
    lambda_handler env remote ev = (Ok out, mkState out [call])
    /\ call_result call = Returns response
    /\ py_getitems response ["Job"; "Id"] = Ok job_id
    /\ status out = "Executing"
    /\ Dict.lookup "MediaconvertJobId" (metadata out) = Some job_id
    /\ valid_event ev = true.
Proof.
  intros Hrun.
  destruct (lambda_handler_run env remote ev)
    as [key Hreq|e Hreq Hne|w b k e Hreq Hf|w b k f Hreq Hf Hna
       |w b k f a e Hreq Hf Ha Hp
       |w b k f a p Hreq Hf Ha Hp Hnone
       |w b k f a p url failure Hreq Hf Ha Hp Hu Hc
       |w b k f a p url str_e Hreq Hf Ha Hp Hu Hc Hr
       |w b k f a p url response e Hreq Hf Ha Hp Hu Hc Hr Hj
       |w b k f a p url response job_id Hreq Hf Ha Hp Hu Hc Hr Hj];
    try discriminate Hrun.
  cbn in Hrun. injection Hrun as <-.
  exists (the_call env url a w f p (Returns response)), response, job_id.
  split; [reflexivity|]. split; [reflexivity|]. split; [exact Hj|].
  split; [reflexivity|]. split.
  - unfold executing_record, attach; cbn [metadata]. lookup_metadata.
  - apply file_location_Ok in Hf as (sb & sk & -> & -> & _).
    eapply fields_valid; eassumption.
Qed.

Lemma normal_return_job_created_witness :
  exists call response,
    calls (snd (lambda_handler Sample.env (Sample.accepting "abc123")
                  Sample.event)) = [call]
    /\ call_result call = Returns response
    /\ py_getitems response ["Job"; "Id"] = Ok (PStr "abc123").
Proof.
  destruct (normal_return_job_created (platform := Sample.platform) Sample.env (Sample.accepting "abc123")
              Sample.event _ eq_refl)
    as (call & response & job_id & Hrun & Hres & Hjob & _ & Hid & _).
  exists call, response. rewrite Hrun. split; [reflexivity|].
  split; [exact Hres|].
  rewrite Hjob. compute in Hid. congruence.
Defined.

(** X4.  [MasExecutionError] has two causes and no other.  It carries the
    record as the handler leaves it, with status "Error"; either nothing
    was submitted, a required field is missing and [ThumbnailError] says
    which key, or exactly one call went out, it raised, and
    [ThumbnailError] is the string form of what it raised. *)
Theorem MasExecutionError_two_causes {platform : Platform} env remote ev out :
  fst (lambda_handler env remote ev) = Raise (MasExecutionError out) ->
  operator_object (snd (lambda_handler env remote ev)) = out
  /\ status out = "Error"
  /\ ((calls (snd (lambda_handler env remote ev)) = []
       /\ missing_required ev = true
       /\ exists key,
            Dict.lookup "ThumbnailError" (metadata out)
            = Some (PStr ("Missing a required metadata key '" ++ key ++ "'")))
      \/ (exists call str_e,
            calls (snd (lambda_handler env remote ev)) = [call]
            /\ call_result call = Raises str_e
            /\ Dict.lookup "ThumbnailError" (metadata out)
               = Some (PStr str_e))).
Proof.
  intros Hrun.
  destruct (lambda_handler_run env remote ev)
    as [key Hreq|e Hreq Hne|w b k e Hreq Hf|w b k f Hreq Hf Hna
       |w b k f a e Hreq Hf Ha Hp
       |w b k f a p Hreq Hf Ha Hp Hnone
       |w b k f a p url failure Hreq Hf Ha Hp Hu Hc
       |w b k f a p url str_e Hreq Hf Ha Hp Hu Hc Hr
       |w b k f a p url response e Hreq Hf Ha Hp Hu Hc Hr Hj
       |w b k f a p url response job_id Hreq Hf Ha Hp Hu Hc Hr Hj];
    cbn [fst snd operator_object calls] in *; try discriminate Hrun.
  - injection Hrun as <-. split; [reflexivity|]. split; [reflexivity|].
    left. split; [reflexivity|].
    split; [now apply required_fields_KeyError_missing with key|].
    exists key. apply lookup_update_1.
  - exfalso. injection Hrun as ->.
    destruct (required_fields_Raise _ _ Hreq) as [[key He]|He]; discriminate He.
  - exfalso. injection Hrun as ->.
    pose proof (file_location_Raise _ _ _ Hf) as He. discriminate He.
  - exfalso. injection Hrun as ->.
    destruct (position_Raise _ _ Hp) as (_ & [He|[He|He]]); discriminate He.
  - exfalso. destruct failure; discriminate Hrun.
  - injection Hrun as <-. split; [reflexivity|]. split; [reflexivity|].
    right. exists (the_call env url a w f p (Raises str_e)), str_e.
    split; [reflexivity|]. split; [reflexivity|]. apply lookup_update_1.
  - exfalso. injection Hrun as ->.
    destruct (py_getitems_Raise _ _ _ Hj) as [[key He]|He]; discriminate He.
Qed.

Lemma MasExecutionError_two_causes_witness :
  exists out,
    fst (lambda_handler Sample.env (Sample.refusing "AccessDenied") Sample.event)
    = Raise (MasExecutionError out)
    /\ operator_object
         (snd (lambda_handler Sample.env (Sample.refusing "AccessDenied")
                 Sample.event)) = out
    /\ status out = "Error".
Proof.
  eexists. split; [reflexivity|].
  destruct (MasExecutionError_two_causes (platform := Sample.platform) Sample.env
              (Sample.refusing "AccessDenied") Sample.event _ eq_refl)
    as (Ho & Hs & _).
  split; [exact Ho | exact Hs].
Defined.

(** X5.  The missing key reported is the first one the handler runs into,
    in the order of the text: with the workflow execution id there, a key
    missing on the way to the bucket is reported whatever the state of the
    key field, and a key missing on the way to the key field is reported
    only when the bucket was found. *)
Theorem first_missing_key_reported {platform : Platform} env remote ev w key :
  workflow_execution_id ev = Some w ->
  py_getitems (input ev) bucket_keys = Raise (KeyError key)
  \/ (is_ok (py_getitems (input ev) bucket_keys) = true
      /\ py_getitems (input ev) key_keys = Raise (KeyError key)) ->
  exists out,
    lambda_handler env remote ev
    = (Raise (MasExecutionError out), mkState out [])
    /\ Dict.lookup "ThumbnailError" (metadata out)
       = Some (PStr ("Missing a required metadata key '" ++ key ++ "'")).
Proof.
  intros Hw Hmiss.
  assert (Hreq : required_fields ev = Raise (KeyError key)).
  { unfold required_fields. rewrite Hw.
    destruct Hmiss as [-> | [Hb ->]]; [reflexivity|].
    apply is_ok_Ok in Hb as [b ->]. reflexivity. }
  exists (missing_key_record ev key).
  split; [|apply lookup_update_1].
  apply handler_is. now apply run_missing_key.
Qed.

Lemma first_missing_key_reported_witness :
  exists out,
    lambda_handler Sample.env (Sample.accepting "abc123")
      Sample2.event_no_bucket_no_key
    = (Raise (MasExecutionError out), mkState out [])
    /\ Dict.lookup "ThumbnailError" (metadata out)
       = Some (PStr "Missing a required metadata key 'S3Bucket'").
Proof.
  apply (first_missing_key_reported (platform := Sample.platform) Sample.env (Sample.accepting "abc123")
           Sample2.event_no_bucket_no_key "wf-1" "S3Bucket" eq_refl).
  left. reflexivity.
Defined.

(** X6.  The first [try] catches [KeyError] and nothing else: when a value on
    the way to the bucket is no dict, the [TypeError] leaves the handler
    unhandled, the record untouched and nothing submitted. *)
Theorem type_error_in_extraction_not_caught {platform : Platform} env remote ev w :
  workflow_execution_id ev = Some w ->
  py_getitems (input ev) bucket_keys = Raise TypeError ->
  lambda_handler env remote ev = (Raise TypeError, mkState ev []).
Proof.
  intros Hw Hb. apply handler_is. apply run_extraction_raises.
  - unfold required_fields. now rewrite Hw, Hb.
  - discriminate.
Qed.

Lemma type_error_in_extraction_not_caught_witness :
  lambda_handler Sample.env (Sample.accepting "abc123") Sample2.event_input_str
  = (Raise TypeError, mkState Sample2.event_input_str []).
Proof.
  apply (type_error_in_extraction_not_caught (platform := Sample.platform) Sample.env
           (Sample.accepting "abc123") Sample2.event_input_str "wf-1"
           eq_refl eq_refl).
Defined.

(** X7.  A bucket or a key that is there but is no string (a null, a
    number) passes the check of the required fields and stops the handler
    at the concatenation of the file location: [TypeError], unhandled, the
    record untouched and nothing submitted. *)
Theorem non_string_location_raises {platform : Platform} env remote ev w b k :
  workflow_execution_id ev = Some w ->
  py_getitems (input ev) bucket_keys = Ok b ->
  py_getitems (input ev) key_keys = Ok k ->
  is_str (Ok b) && is_str (Ok k) = false ->
  lambda_handler env remote ev = (Raise TypeError, mkState ev []).
Proof.
  intros Hw Hb Hk Hs. apply handler_is.
  apply run_file_location_raises with w b k.
  - unfold required_fields. now rewrite Hw, Hb, Hk.
  - unfold file_location, py_str_add.
    destruct b; try reflexivity. destruct k; try reflexivity. discriminate Hs.
Qed.

Lemma non_string_location_raises_witness :
  lambda_handler Sample.env (Sample.accepting "abc123") Sample2.event_bucket_null
  = (Raise TypeError, mkState Sample2.event_bucket_null []).
Proof.
  apply (non_string_location_raises (platform := Sample.platform) Sample.env (Sample.accepting "abc123")
           Sample2.event_bucket_null "wf-1" PNone (PStr "videos/a.mp4")
           eq_refl eq_refl eq_refl eq_refl).
Defined.

Lemma handler_no_endpoint {platform : Platform} env remote ev :
  valid_event ev = true ->
  MEDIACONVERT_ENDPOINT env = None ->
  lambda_handler env remote ev
  = (Raise (KeyError "MEDIACONVERT_ENDPOINT"), mkState ev []).
Proof.
  intros Hv He.
  destruct (valid_fields ev Hv) as (w & b & k & a & p & Hreq & Ha & Hpos).
  apply handler_is.
  apply run_no_endpoint with w (PStr b) (PStr k) ("s3://" ++ b ++ "/" ++ k) a p;
    trivial.
  apply file_location_str.
Qed.

(** X8.  Without [MEDIACONVERT_ENDPOINT] a valid event ends in a [KeyError]
    for that name: unhandled, nothing submitted, and the workflow is not
    told, the record staying as it was. *)
Theorem missing_endpoint_raises {platform : Platform} env remote ev :
  valid_event ev = true ->
  MEDIACONVERT_ENDPOINT env = None ->
  lambda_handler env remote ev
  = (Raise (KeyError "MEDIACONVERT_ENDPOINT"), mkState ev []).
Proof. apply handler_no_endpoint. Qed.

Lemma missing_endpoint_raises_witness :
  lambda_handler Sample2.env_no_endpoint (Sample.accepting "abc123") Sample.event
  = (Raise (KeyError "MEDIACONVERT_ENDPOINT"), mkState Sample.event []).
Proof.
  apply (missing_endpoint_raises (platform := Sample.platform) Sample2.env_no_endpoint
           (Sample.accepting "abc123") Sample.event eq_refl eq_refl).
Defined.

(** X9.  When the call returns a response without [Job] or without [Id]
    under it, the job has been submitted but the handler raises [KeyError]
    for that name (or [TypeError] when [Job] is no dict) from the [else]
    branch, which no handler covers: the record is untouched, neither
    "Executing" nor "Error" is set, and the job id is not recorded. *)
Theorem response_without_job_id {platform : Platform} env remote ev call response e :
  In call (calls (snd (lambda_handler env remote ev))) ->
  call_result call = Returns response ->
  py_getitems response ["Job"; "Id"] = Raise e ->
  lambda_handler env remote ev = (Raise e, mkState ev [call])
  /\ (e = KeyError "Job" \/ e = KeyError "Id" \/ e = TypeError).
Proof.
  intros Hin Hres Hj.
  destruct (handler_call_inv env remote ev call Hin)
    as (w & b & k & a & p & url & Hreq & Ha & Hpos & He & Hc & Hcall & _).
  pose proof (handler_submits env remote ev w b k a p url Hreq Ha Hpos He Hc)
    as Hrun.
  cbv zeta in Hrun.
  rewrite Hcall in Hres. cbn in Hres. rewrite Hres, Hj in Hrun.
  rewrite <- Hres, <- Hcall in Hrun.
  split; [exact Hrun|].
  revert Hj. unfold py_getitems, py_getitem.
  destruct response; try (intros E; injection E as <-; tauto).
  destruct (Dict.lookup "Job" d) as [[]|];
    try (intros E; injection E as <-; tauto).
  destruct (Dict.lookup "Id" d0); [discriminate|].
  intros E; injection E as <-; tauto.
Qed.

Lemma response_without_job_id_witness :
  let call :=
    the_call Sample.env "https://mediaconvert.example" "asset-1"
      "wf-1" "s3://input-bucket/videos/a.mp4" 7
      (Returns (PDict [("ResponseMetadata", PDict [])])) in
  lambda_handler Sample.env Sample2.answering_nothing Sample.event
  = (Raise (KeyError "Job"), mkState Sample.event [call]).
Proof.
  cbv zeta.
  apply (response_without_job_id (platform := Sample.platform) Sample.env Sample2.answering_nothing
           Sample.event _ (PDict [("ResponseMetadata", PDict [])])
           (KeyError "Job")).
  - left. reflexivity.
  - reflexivity.
  - reflexivity.
Defined.

(** ** Invoking again *)

Lemma set_lookup_id k v d : Dict.lookup k d = Some v -> Dict.set k v d = d.
Proof.
  induction d as [|[k' v'] d IH]; cbn; [discriminate|].
  destruct (String.eqb k k') eqn:E.
  - intros H. injection H as ->. reflexivity.
  - intros H. now rewrite IH.
Qed.

Lemma update_executing_idem job_id f a w d :
  let kwargs :=
    [("MediaconvertJobId", job_id); ("MediaconvertInputFile", PStr f);
     ("AssetId", a); ("WorkflowExecutionId", PStr w)] in
  Dict.update kwargs (Dict.update kwargs d) = Dict.update kwargs d.
Proof.
  cbv zeta. set (d' := Dict.update _ d) at 1 2.
  assert (H1 : Dict.lookup "MediaconvertJobId" d' = Some job_id)
    by (subst d'; lookup_metadata).
  assert (H2 : Dict.lookup "MediaconvertInputFile" d' = Some (PStr f))
    by (subst d'; lookup_metadata).
  assert (H3 : Dict.lookup "AssetId" d' = Some a)
    by (subst d'; lookup_metadata).
  assert (H4 : Dict.lookup "WorkflowExecutionId" d' = Some (PStr w))
    by (subst d'; lookup_metadata).
  clearbody d'. unfold Dict.update. cbn [fold_left fst snd].
  now rewrite (set_lookup_id _ _ _ H1), (set_lookup_id _ _ _ H2),
    (set_lookup_id _ _ _ H3), (set_lookup_id _ _ _ H4).
Qed.

Lemma same_reads_fields {platform : Platform} ev ev' :
  same_reads ev ev' ->
  required_fields ev' = required_fields ev
  /\ asset_or_empty ev' = asset_or_empty ev
  /\ position (configuration ev') = position (configuration ev).
Proof.
  intros (Hw & Ha & Hb & Hk & Hp).
  unfold required_fields, position.
  now rewrite Hw, Ha, Hb, Hk, Hp.
Qed.

(** X10.  What is submitted depends on five things the handler reads and on
    nothing else in the event: the workflow execution id, the asset id (none
    counting as the empty string), the bucket and the key of the video, and
    the thumbnail position.  Two events that agree on these lead to the same
    calls, and the handler returns for the one when it returns for the
    other, whatever their status, metadata, other media and other
    configuration; an event already "Executing" or "Error" is submitted like
    any other. *)
Theorem request_depends_on_reads {platform : Platform} env remote ev ev' :
  same_reads ev ev' ->
  calls (snd (lambda_handler env remote ev))
  = calls (snd (lambda_handler env remote ev'))
  /\ is_ok (fst (lambda_handler env remote ev))
     = is_ok (fst (lambda_handler env remote ev')).
Proof.
  intros Hsame.
  destruct (same_reads_fields ev ev' Hsame) as (Hreq' & Ha' & Hpos').
  destruct (lambda_handler_run env remote ev)
    as [key Hreq|e Hreq Hne|w b k e Hreq Hf|w b k f Hreq Hf Hna
       |w b k f a e Hreq Hf Ha Hp
       |w b k f a p Hreq Hf Ha Hp Hnone
       |w b k f a p url failure Hreq Hf Ha Hp Hu Hc
       |w b k f a p url str_e Hreq Hf Ha Hp Hu Hc Hr
       |w b k f a p url response e Hreq Hf Ha Hp Hu Hc Hr Hj
       |w b k f a p url response job_id Hreq Hf Ha Hp Hu Hc Hr Hj];
    rewrite <- Hreq' in Hreq; try rewrite <- Ha' in Ha;
    try rewrite <- Hpos' in Hp.
  - now rewrite (handler_is env remote ev' _ (run_missing_key env remote ev' key Hreq)).
  - now rewrite (handler_is env remote ev' _
                   (run_extraction_raises env remote ev' e Hreq Hne)).
  - now rewrite (handler_is env remote ev' _
                   (run_file_location_raises env remote ev' w b k e Hreq Hf)).
  - rewrite <- Ha' in Hna.
    now rewrite (handler_is env remote ev' _
                   (run_destination_raises env remote ev' w b k f Hreq Hf Hna)).
  - now rewrite (handler_is env remote ev' _
                   (run_position_raises env remote ev' w b k f a e
                      Hreq Hf Ha Hp)).
  - now rewrite (handler_is env remote ev' _
                   (run_no_endpoint env remote ev' w b k f a p
                      Hreq Hf Ha Hp Hnone)).
  - now rewrite (handler_is env remote ev' _
                   (run_client_raises env remote ev' w b k f a p url failure
                      Hreq Hf Ha Hp Hu Hc)).
  - now rewrite (handler_is env remote ev' _
                   (run_submission_raises env remote ev' w b k f a p url str_e
                      Hreq Hf Ha Hp Hu Hc Hr)).
  - now rewrite (handler_is env remote ev' _
                   (run_response_raises env remote ev' w b k f a p url
                      response e Hreq Hf Ha Hp Hu Hc Hr Hj)).
  - now rewrite (handler_is env remote ev' _
                   (run_executing env remote ev' w b k f a p url response
                      job_id Hreq Hf Ha Hp Hu Hc Hr Hj)).
Qed.

Lemma request_depends_on_reads_witness :
  calls (snd (lambda_handler Sample.env (Sample.accepting "abc123") Sample.event))
  = calls (snd (lambda_handler Sample.env (Sample.accepting "abc123")
                  Sample2.event_busy)).
Proof.
  apply (request_depends_on_reads (platform := Sample.platform) Sample.env (Sample.accepting "abc123")
           Sample.event Sample2.event_busy).
  repeat split.
Defined.

(** X11.  The record the handler returns is an event it accepts again:
    invoked on it, with the service answering as before, the handler
    submits the same request a second time and returns the same record.
    Nothing marks a record as submitted already. *)
Theorem reinvocation_submits_again {platform : Platform} env remote ev out :
  fst (lambda_handler env remote ev) = Ok out ->
  lambda_handler env remote out = lambda_handler env remote ev.
Proof.
  intros Hrun.
  destruct ev as [wf a0 i cfg s md].
  destruct (lambda_handler_run env remote (mkWorkflowRecord wf a0 i cfg s md))
    as [key Hreq|e Hreq Hne|w b k e Hreq Hf|w b k f Hreq Hf Hna
       |w b k f a e Hreq Hf Ha Hp
       |w b k f a p Hreq Hf Ha Hp Hnone
       |w b k f a p url failure Hreq Hf Ha Hp Hu Hc
       |w b k f a p url str_e Hreq Hf Ha Hp Hu Hc Hr
       |w b k f a p url response e Hreq Hf Ha Hp Hu Hc Hr Hj
       |w b k f a p url response job_id Hreq Hf Ha Hp Hu Hc Hr Hj];
    try discriminate Hrun.
  cbn [fst] in Hrun. injection Hrun as <-.
  set (ev := mkWorkflowRecord wf a0 i cfg s md) in *.
  set (out := executing_record ev job_id w f).
  rewrite (handler_is env remote out _
             (run_executing env remote out w b k f a p url response job_id
                Hreq Hf Ha Hp Hu Hc Hr Hj)).
  assert (Hout : executing_record out job_id w f = out).
  { subst out. unfold executing_record, attach, asset_or_empty.
    cbn [workflow_execution_id asset_id input configuration status metadata].
    f_equal. apply update_executing_idem. }
  rewrite Hout. reflexivity.
Qed.

Lemma reinvocation_submits_again_witness :
  exists out,
    fst (lambda_handler Sample.env (Sample.accepting "abc123") Sample.event)
    = Ok out
    /\ lambda_handler Sample.env (Sample.accepting "abc123") out
       = lambda_handler Sample.env (Sample.accepting "abc123") Sample.event.
Proof.
  eexists. split; [reflexivity|].
  apply (reinvocation_submits_again (platform := Sample.platform) Sample.env (Sample.accepting "abc123")
           Sample.event _ eq_refl).
Defined.

(** ** What a request reads and writes *)

Lemma settings_destinations p t a x f :
  collect "Destination" (job_settings p t a x f)
  = [PStr t; PStr a; PStr x; PStr x].
Proof. reflexivity. Qed.

Lemma settings_file_inputs p t a x f :
  collect "FileInput" (job_settings p t a x f) = [PStr f].
Proof. reflexivity. Qed.

Lemma settings_name_modifiers p t a x f :
  strings_of (collect "NameModifier" (job_settings p t a x f))
  = ["_thumbnail"; "_audio"; "_proxy"; "_1080p"; "_720ph"; "_720pl"; "_540p";
     "_360p"].
Proof. reflexivity. Qed.

(** X12.  A request writes under the prefix of the asset in the dataplane
    bucket and nowhere else, and reads the source file and nothing else:
    every [Destination] found anywhere in its settings begins with "s3://" +
    dataplane bucket + "/private/assets/" + asset id + "/", and the one
    [FileInput] is "s3://" + bucket + "/" + key. *)
Theorem request_reads_and_writes {platform : Platform} env remote ev call :
  In call (calls (snd (lambda_handler env remote ev))) ->
  (exists a,
     asset_or_empty ev = PStr a
     /\ forall v,
          In v (collect "Destination" (Settings (call_request call))) ->
          exists s,
            v = PStr s
            /\ String.prefix
                 ("s3://" ++ dataplane_bucket env ++ "/" ++ "private/assets/"
                    ++ a ++ "/") s = true)
  /\ exists b k,
       py_getitems (input ev) bucket_keys = Ok (PStr b)
       /\ py_getitems (input ev) key_keys = Ok (PStr k)
       /\ collect "FileInput" (Settings (call_request call))
          = [PStr ("s3://" ++ b ++ "/" ++ k)].
Proof.
  intros Hin.
  destruct (handler_call_inv env remote ev call Hin)
    as (w & b & k & a & p & url & Hreq & Ha & _ & _ & _ & -> & _).
  destruct (required_fields_Ok ev w _ _ Hreq) as (_ & Hb & Hk).
  unfold the_call, request; cbn [call_request Settings].
  split.
  - exists a. split; [exact Ha|].
    rewrite settings_destinations. fold (asset_prefix env a).
    intros v [<-|[<-|[<-|[<-|[]]]]]; eexists; (split; [reflexivity|]);
      try apply prefix_refl.
    replace ("s3://" ++ dataplane_bucket env ++ "/" ++ "private/assets/"
               ++ a ++ "/workflows/" ++ w ++ "/")
      with (asset_prefix env a ++ "workflows/" ++ w ++ "/")
      by (unfold asset_prefix; now rewrite !append_assoc).
    apply prefix_append.
  - exists b, k. split; [exact Hb|]. split; [exact Hk|].
    apply settings_file_inputs.
Qed.

Lemma request_reads_and_writes_witness :
  let call :=
    the_call Sample.env "https://mediaconvert.example" "asset-1"
      "wf-1" "s3://input-bucket/videos/a.mp4" 7
      (Returns (PDict [("Job", PDict [("Id", PStr "abc123")])])) in
  collect "FileInput" (Settings (call_request call))
  = [PStr "s3://input-bucket/videos/a.mp4"]
  /\ exists s,
       nth 1 (collect "Destination" (Settings (call_request call))) PNone
       = PStr s
       /\ String.prefix "s3://dataplane/private/assets/asset-1/" s = true.
Proof.
  cbv zeta.
  destruct (request_reads_and_writes (platform := Sample.platform) Sample.env (Sample.accepting "abc123")
              Sample.event
              (the_call Sample.env "https://mediaconvert.example" "asset-1"
                 "wf-1" "s3://input-bucket/videos/a.mp4" 7
                 (Returns (PDict [("Job", PDict [("Id", PStr "abc123")])]))))
    as ((a & Ha & Hd) & b & k & Hb & Hk & Hf).
  - left. reflexivity.
  - split.
    + rewrite Hf. injection Hb as <-. injection Hk as <-. reflexivity.
    + injection Ha as <-. apply Hd. right. left. reflexivity.
Defined.

(** X13.  The eight outputs of a request have eight different name
    modifiers.  The thumbnail, the proxy and the streaming renditions are
    written under one destination, so this is what keeps one output from
    taking the name of another. *)
Theorem output_names_distinct {platform : Platform} env remote ev call :
  In call (calls (snd (lambda_handler env remote ev))) ->
  let names :=
    strings_of (collect "NameModifier" (Settings (call_request call))) in
  length names = 8%nat
  /\ length (collect "NameModifier" (Settings (call_request call))) = 8%nat
  /\ NoDup names.
Proof.
  intros Hin.
  destruct (handler_call_inv env remote ev call Hin)
    as (w & b & k & a & p & url & _ & _ & _ & _ & _ & -> & _).
  unfold the_call, request; cbn [call_request Settings]. cbv zeta.
  rewrite settings_name_modifiers.
  split; [reflexivity|]. split; [reflexivity|].
  repeat constructor; cbn; intuition discriminate.
Qed.

Lemma output_names_distinct_witness :
  NoDup
    (strings_of
       (collect "NameModifier"
          (Settings
             (call_request
                (the_call Sample.env "https://mediaconvert.example" "asset-1"
                   "wf-1" "s3://input-bucket/videos/a.mp4" 7
                   (Raises "AccessDenied")))))).
Proof.
  apply (output_names_distinct (platform := Sample.platform) Sample.env (Sample.refusing "AccessDenied")
           Sample.event).
  left. reflexivity.
Defined.

(** ** Destinations of different assets *)

Lemma append_inv_head (a b c : string) : a ++ b = a ++ c -> b = c.
Proof.
  induction a as [|x a IH]; [trivial|].
  change (String x a ++ b) with (String x (a ++ b)).
  change (String x a ++ c) with (String x (a ++ c)).
  intros H. injection H as H. now apply IH.
Qed.

Lemma append_inv_tail (a b s : string) : a ++ s = b ++ s -> a = b.
Proof.
  revert b. induction a as [|x a IH]; intros [|y b] H.
  - reflexivity.
  - exfalso. apply (f_equal String.length) in H.
    rewrite !length_append in H. cbn in H. lia.
  - exfalso. apply (f_equal String.length) in H.
    rewrite !length_append in H. cbn in H. lia.
  - change (String x a ++ s) with (String x (a ++ s)) in H.
    change (String y b ++ s) with (String y (b ++ s)) in H.
    injection H as -> H. f_equal. now apply IH.
Qed.

(** X14.  The thumbnail and proxy destination tells the asset: two requests
    sent from one process with the same thumbnail destination come from
    events with the same asset id, an absent one counting as the empty
    string.  Outputs of different assets never share that prefix. *)
Theorem destination_tells_asset {platform : Platform} env remote remote' ev ev' call call' :
  In call (calls (snd (lambda_handler env remote ev))) ->
  In call' (calls (snd (lambda_handler env remote' ev'))) ->
  get_at thumbnail_destination_path (Settings (call_request call))
  = get_at thumbnail_destination_path (Settings (call_request call')) ->
  asset_or_empty ev = asset_or_empty ev'.
Proof.
  intros Hin Hin' Heq.
  destruct (handler_call_inv env remote ev call Hin)
    as (w & b & k & a & p & url & _ & Ha & _ & _ & _ & -> & _).
  destruct (handler_call_inv env remote' ev' call' Hin')
    as (w' & b' & k' & a' & p' & url' & _ & Ha' & _ & _ & _ & -> & _).
  unfold the_call, request in Heq; cbn [call_request Settings] in Heq.
  destruct (settings_variables p (asset_prefix env a)
              ("s3://" ++ dataplane_bucket env ++ "/" ++ "private/assets/"
                 ++ a ++ "/workflows/" ++ w ++ "/")
              (asset_prefix env a) ("s3://" ++ b ++ "/" ++ k))
    as (_ & Ht & _).
  destruct (settings_variables p' (asset_prefix env a')
              ("s3://" ++ dataplane_bucket env ++ "/" ++ "private/assets/"
                 ++ a' ++ "/workflows/" ++ w' ++ "/")
              (asset_prefix env a') ("s3://" ++ b' ++ "/" ++ k'))
    as (_ & Ht' & _).
  rewrite Ht, Ht' in Heq. injection Heq as Heq. unfold asset_prefix in Heq.
  do 4 apply append_inv_head in Heq.
  apply append_inv_tail in Heq. congruence.
Qed.

Lemma destination_tells_asset_witness :
  asset_or_empty Sample.event
  = asset_or_empty (Sample.event_position (PInt 12)).
Proof.
  apply (destination_tells_asset (platform := Sample.platform) Sample.env (Sample.accepting "abc123")
           (Sample.refusing "AccessDenied") Sample.event
           (Sample.event_position (PInt 12))
           (the_call Sample.env "https://mediaconvert.example" "asset-1"
              "wf-1" "s3://input-bucket/videos/a.mp4" 7
              (Returns (PDict [("Job", PDict [("Id", PStr "abc123")])])))
           (the_call Sample.env "https://mediaconvert.example" "asset-1"
              "wf-1" "s3://input-bucket/videos/a.mp4" 12
              (Raises "AccessDenied"))).
  - left. reflexivity.
  - left. reflexivity.
  - reflexivity.
Defined.

(** ** Loading the module *)

Lemma module_init_Ok {platform : Platform} json_loads Config environ env :
  module_init json_loads Config environ = Ok env ->
  environ_get "AWS_REGION" environ = Some (region env)
  /\ environ_get "mediaconvertRole" environ = Some (mediaconvert_role env)
  /\ environ_get "DATAPLANE_BUCKET" environ = Some (dataplane_bucket env)
  /\ MEDIACONVERT_ENDPOINT env = environ_get "MEDIACONVERT_ENDPOINT" environ
  /\ exists s c,
       environ_get "botoConfig" environ = Some s
       /\ json_loads s = Ok c /\ Config c = Ok tt
       /\ boto3_client_config c (region env) = None.
Proof.
  unfold module_init, environ_getitem.
  destruct (environ_get "AWS_REGION" environ) as [r|]; [|discriminate].
  destruct (environ_get "botoConfig" environ) as [s|]; [|discriminate].
  destruct (json_loads s) as [c|] eqn:Hj; [|discriminate].
  destruct (Config c) as [[]|] eqn:Hc; [|discriminate].
  destruct (environ_get "mediaconvertRole" environ) as [m|]; [|discriminate].
  destruct (environ_get "DATAPLANE_BUCKET" environ) as [d|]; [|discriminate].
  destruct (boto3_client_config c r) eqn:Hb; [discriminate|].
  intros E. injection E as <-. cbn. eauto 10.
Qed.

(** X15.  When one of the variables [AWS_REGION], [botoConfig],
    [mediaconvertRole], [DATAPLANE_BUCKET] is not set, the module does not
    load; and when the value of [botoConfig], if there is one, parses and
    makes a client configuration, what stops the load is the [KeyError] for
    the first of the four, in that order, that is not set. *)
Theorem module_init_unset_variable {platform : Platform} json_loads Config environ k :
  first_unset environ load_variables = Some k ->
  (forall env, module_init json_loads Config environ <> Ok env)
  /\ ((forall s,
         environ_get "botoConfig" environ = Some s ->
         exists c, json_loads s = Ok c /\ Config c = Ok tt) ->
      module_init json_loads Config environ = Raise (KeyError k)).
Proof.
  unfold first_unset, load_variables. intros Hun. split.
  - intros env Hok.
    apply module_init_Ok in Hok as (Hr & Hm & Hd & _ & (s & c & Hs & _)).
    rewrite Hr, Hs, Hm, Hd in Hun. discriminate.
  - intros Hparse. unfold module_init, environ_getitem.
    destruct (environ_get "AWS_REGION" environ) as [r|];
      [|now injection Hun as <-].
    destruct (environ_get "botoConfig" environ) as [s|];
      [|now injection Hun as <-].
    destruct (Hparse s eq_refl) as (c & -> & ->).
    destruct (environ_get "mediaconvertRole" environ) as [m|];
      [|now injection Hun as <-].
    destruct (environ_get "DATAPLANE_BUCKET" environ) as [d|];
      [discriminate | now injection Hun as <-].
Qed.

Lemma module_init_unset_variable_witness :
  module_init Sample2.json_loads Sample2.Config Sample2.environ_no_role
  = Raise (KeyError "mediaconvertRole").
Proof.
  apply (module_init_unset_variable (platform := Sample.platform) Sample2.json_loads Sample2.Config
           Sample2.environ_no_role "mediaconvertRole" eq_refl).
  intros s E. injection E as <-. exists (PDict []). split; reflexivity.
Defined.

(** X16.  [MEDIACONVERT_ENDPOINT] is not among the variables the module
    needs to load: with the four others set, [botoConfig] in order and the
    client of line 45 made for the region, the module loads without it.  Its
    absence shows only when a valid event is handled, as an unhandled
    [KeyError] for that name, with nothing submitted and the record
    untouched. *)
Theorem module_loads_without_endpoint {platform : Platform} json_loads Config environ :
  first_unset environ load_variables = None ->
  (forall s,
     environ_get "botoConfig" environ = Some s ->
     exists c, json_loads s = Ok c /\ Config c = Ok tt) ->
  environ_get "MEDIACONVERT_ENDPOINT" environ = None ->
  (forall r s c,
     environ_get "AWS_REGION" environ = Some r ->
     environ_get "botoConfig" environ = Some s ->
     json_loads s = Ok c ->
     boto3_client_config c r = None) ->
  exists env,
    module_init json_loads Config environ = Ok env
    /\ forall remote ev,
         valid_event ev = true ->
         lambda_handler env remote ev
         = (Raise (KeyError "MEDIACONVERT_ENDPOINT"), mkState ev []).
Proof.
  unfold first_unset, load_variables. intros Hset Hparse He Hclient.
  unfold module_init, environ_getitem.
  destruct (environ_get "AWS_REGION" environ) as [r|] eqn:Hr; [|discriminate].
  destruct (environ_get "botoConfig" environ) as [s|] eqn:Hs; [|discriminate].
  destruct (Hparse s eq_refl) as (c & Hj & Hc). rewrite Hj, Hc.
  destruct (environ_get "mediaconvertRole" environ) as [m|]; [|discriminate].
  destruct (environ_get "DATAPLANE_BUCKET" environ) as [d|]; [|discriminate].
  rewrite (Hclient r s c eq_refl eq_refl Hj).
  eexists. split; [reflexivity|].
  intros remote ev Hv. apply handler_no_endpoint; [exact Hv | exact He].
Qed.

Lemma module_loads_without_endpoint_witness :
  exists env,
    module_init Sample2.json_loads Sample2.Config Sample2.environ_no_endpoint
    = Ok env
    /\ lambda_handler env (Sample.accepting "abc123") Sample.event
       = (Raise (KeyError "MEDIACONVERT_ENDPOINT"), mkState Sample.event []).
Proof.
  destruct (module_loads_without_endpoint (platform := Sample.platform) Sample2.json_loads Sample2.Config
              Sample2.environ_no_endpoint eq_refl)
    as (env & Hload & Hrun).
  - intros s E. injection E as <-. exists (PDict []). split; reflexivity.
  - reflexivity.
  - intros r s c Er Es Ej. injection Er as <-. reflexivity.
  - exists env. split; [exact Hload|]. apply Hrun. reflexivity.
Defined.

(** X17.  From the variables of the process to the request: after the
    module has loaded, every call goes through a client for the region of
    [AWS_REGION] and the endpoint of [MEDIACONVERT_ENDPOINT], with the role
    of [mediaconvertRole], and writes under "s3://" + the bucket of
    [DATAPLANE_BUCKET] + "/private/assets/" + asset id + "/". *)
Theorem loaded_environment_in_request {platform : Platform} json_loads Config environ env remote ev call :
  module_init json_loads Config environ = Ok env ->
  In call (calls (snd (lambda_handler env remote ev))) ->
  environ_get "AWS_REGION" environ = Some (region_name (call_client call))
  /\ environ_get "MEDIACONVERT_ENDPOINT" environ
     = Some (endpoint_url (call_client call))
  /\ environ_get "mediaconvertRole" environ = Some (Role (call_request call))
  /\ exists bucket a,
       environ_get "DATAPLANE_BUCKET" environ = Some bucket
       /\ asset_or_empty ev = PStr a
       /\ get_at thumbnail_destination_path (Settings (call_request call))
          = Some (PStr ("s3://" ++ bucket ++ "/" ++ "private/assets/"
                          ++ a ++ "/")).
Proof.
  intros Hload Hin.
  apply module_init_Ok in Hload as (Hr & Hm & Hd & He & _).
  destruct (handler_call_inv env remote ev call Hin)
    as (w & b & k & a & p & url & _ & Ha & _ & Hu & _ & -> & _).
  unfold the_call, request, the_client;
    cbn [call_client call_request region_name endpoint_url Role Settings].
  split; [exact Hr|]. split; [congruence|]. split; [exact Hm|].
  exists (dataplane_bucket env), a.
  split; [exact Hd|]. split; [exact Ha | reflexivity].
Qed.

Lemma loaded_environment_in_request_witness :
  let call :=
    the_call Sample.env "https://mediaconvert.example" "asset-1"
      "wf-1" "s3://input-bucket/videos/a.mp4" 7
      (Returns (PDict [("Job", PDict [("Id", PStr "abc123")])])) in
  environ_get "mediaconvertRole" Sample2.environ
  = Some (Role (call_request call))
  /\ environ_get "MEDIACONVERT_ENDPOINT" Sample2.environ
     = Some (endpoint_url (call_client call)).
Proof.
  cbv zeta.
  destruct (loaded_environment_in_request (platform := Sample.platform) Sample2.json_loads Sample2.Config
              Sample2.environ Sample.env (Sample.accepting "abc123")
              Sample.event
              (the_call Sample.env "https://mediaconvert.example" "asset-1"
                 "wf-1" "s3://input-bucket/videos/a.mp4" 7
                 (Returns (PDict [("Job", PDict [("Id", PStr "abc123")])])))
              eq_refl)
    as (_ & He & Hm & _).
  - left. reflexivity.
  - split; [exact Hm | exact He].
Defined.

(** ** What an escaping exception tells *)

(** X18.  A [KeyError] that leaves the handler never names a field of the
    event: keys missing from the event are all turned into
    [MasExecutionError].  It names [MEDIACONVERT_ENDPOINT], the variable
    being unset, the event valid and nothing submitted; or it comes from a
    response without job id, after the one call. *)
Theorem escaping_KeyError {platform : Platform} env remote ev key :
  fst (lambda_handler env remote ev) = Raise (KeyError key) ->
  (key = "MEDIACONVERT_ENDPOINT"
   /\ MEDIACONVERT_ENDPOINT env = None
   /\ valid_event ev = true
   /\ calls (snd (lambda_handler env remote ev)) = [])
  \/ (exists call response,
        calls (snd (lambda_handler env remote ev)) = [call]
        /\ call_result call = Returns response
        /\ py_getitems response ["Job"; "Id"] = Raise (KeyError key)).
Proof.
  intros Hrun.
  destruct (lambda_handler_run env remote ev)
    as [key' Hreq|e Hreq Hne|w b k e Hreq Hf|w b k f Hreq Hf Hna
       |w b k f a e Hreq Hf Ha Hp
       |w b k f a p Hreq Hf Ha Hp Hnone
       |w b k f a p url failure Hreq Hf Ha Hp Hu Hc
       |w b k f a p url str_e Hreq Hf Ha Hp Hu Hc Hr
       |w b k f a p url response e Hreq Hf Ha Hp Hu Hc Hr Hj
       |w b k f a p url response job_id Hreq Hf Ha Hp Hu Hc Hr Hj];
    cbn [fst snd calls] in *; try discriminate Hrun.
  - exfalso. injection Hrun as ->. eapply Hne. reflexivity.
  - exfalso. injection Hrun as ->.
    pose proof (file_location_Raise _ _ _ Hf) as He. discriminate He.
  - exfalso. injection Hrun as ->.
    destruct (position_Raise _ _ Hp) as (_ & [He|[He|He]]); discriminate He.
  - injection Hrun as <-. left. repeat split; trivial.
    apply file_location_Ok in Hf as (sb & sk & -> & -> & _).
    eapply fields_valid; eassumption.
  - exfalso. destruct failure; discriminate Hrun.
  - injection Hrun as ->. right.
    exists (the_call env url a w f p (Returns response)), response.
    repeat split. exact Hj.
Qed.

Lemma escaping_KeyError_witness :
  MEDIACONVERT_ENDPOINT Sample.env <> None
  /\ exists call response,
       calls (snd (lambda_handler Sample.env Sample2.answering_nothing
                     Sample.event)) = [call]
       /\ call_result call = Returns response
       /\ py_getitems response ["Job"; "Id"] = Raise (KeyError "Job").
Proof.
  split; [discriminate|].
  destruct (escaping_KeyError (platform := Sample.platform) Sample.env Sample2.answering_nothing Sample.event
              "Job" eq_refl)
    as [(E & _)|E]; [discriminate E | exact E].
Defined.

(** X19.  A [ValueError] that leaves the handler has one of two sources,
    both outside every [try]: the conversion of the thumbnail position,
    where the configuration holds a [ThumbnailPosition] that [int] rejects,
    or the making of the client for the endpoint, where the event is valid
    and [boto3.client] raises it for the configured endpoint.  Either way
    the required fields were found, nothing was submitted and the record is
    untouched. *)
Theorem escaping_ValueError {platform : Platform} env remote ev :
  fst (lambda_handler env remote ev) = Raise ValueError ->
  lambda_handler env remote ev = (Raise ValueError, mkState ev [])
  /\ required_present ev = true
  /\ asset_typed ev = true
  /\ ((exists v,
         Dict.lookup "ThumbnailPosition" (configuration ev) = Some v
         /\ py_int v = Raise ValueError)
      \/ (valid_event ev = true
          /\ exists url,
               MEDIACONVERT_ENDPOINT env = Some url
               /\ boto3_client (region env) url = Some InvalidArgument)).
Proof.
  intros Hrun.
  assert (Hpresent : forall w b k f a,
            required_fields ev = Ok (w, b, k) ->
            file_location b k = Ok f ->
            asset_or_empty ev = PStr a ->
            required_present ev = true /\ asset_typed ev = true).
  { intros w b k f a Hreq Hf Ha.
    apply file_location_Ok in Hf as (sb & sk & -> & -> & _).
    destruct (required_fields_Ok ev w _ _ Hreq) as (Hw & Hb & Hk).
    unfold required_present, asset_typed. now rewrite Hw, Hb, Hk, Ha. }
  destruct (lambda_handler_run env remote ev)
    as [key' Hreq|e Hreq Hne|w b k e Hreq Hf|w b k f Hreq Hf Hna
       |w b k f a e Hreq Hf Ha Hp
       |w b k f a p Hreq Hf Ha Hp Hnone
       |w b k f a p url failure Hreq Hf Ha Hp Hu Hc
       |w b k f a p url str_e Hreq Hf Ha Hp Hu Hc Hr
       |w b k f a p url response e Hreq Hf Ha Hp Hu Hc Hr Hj
       |w b k f a p url response job_id Hreq Hf Ha Hp Hu Hc Hr Hj];
    cbn [fst snd calls] in *; try discriminate Hrun.
  - exfalso. injection Hrun as ->.
    destruct (required_fields_Raise _ _ Hreq) as [[key He]|He]; discriminate He.
  - exfalso. injection Hrun as ->.
    pose proof (file_location_Raise _ _ _ Hf) as He. discriminate He.
  - injection Hrun as ->.
    destruct (Hpresent w b k f a Hreq Hf Ha) as (Hrp & Hat).
    split; [reflexivity|]. split; [exact Hrp|]. split; [exact Hat|].
    left. exact (proj1 (position_Raise _ _ Hp)).
  - destruct failure; [|discriminate Hrun].
    destruct (Hpresent w b k f a Hreq Hf Ha) as (Hrp & Hat).
    split; [reflexivity|]. split; [exact Hrp|]. split; [exact Hat|].
    right. split; [|eauto].
    apply file_location_Ok in Hf as (sb & sk & -> & -> & _).
    eapply fields_valid; eassumption.
  - exfalso. injection Hrun as ->.
    destruct (py_getitems_Raise _ _ _ Hj) as [[key He]|He]; discriminate He.
Qed.

Lemma escaping_ValueError_witness :
  lambda_handler Sample2.env_bad_endpoint (Sample.accepting "abc123") Sample.event
  = (Raise ValueError, mkState Sample.event [])
  /\ Dict.lookup "ThumbnailPosition" (configuration Sample.event) = None.
Proof.
  destruct (escaping_ValueError (platform := Sample.platform) Sample2.env_bad_endpoint
              (Sample.accepting "abc123") Sample.event eq_refl)
    as (Hrun & _).
  split; [exact Hrun | reflexivity].
Defined.

(** ** Statements outside every try *)

Lemma quot_bounds m d :
  0 < d ->
  (0 <= m -> Z.quot m d * d <= m < (Z.quot m d + 1) * d)
  /\ (m <= 0 -> (Z.quot m d - 1) * d < m <= Z.quot m d * d).
Proof.
  intros Hd. pose proof (Z.quot_rem' m d) as E. split; intros Hm.
  - pose proof (Z.rem_bound_pos m d Hm Hd). nia.
  - pose proof (Z.rem_bound_pos_neg m d Hd Hm). nia.
Qed.

(** X20.  A thumbnail position that is a number with a fraction is cut to
    an integer before it goes into the request, towards zero: for the float
    [m * 2^e] with [e < 0], the denominator [p] of every request sent is the
    integer next to the float on the side of zero.  A position between 0
    and 1 thus gives the denominator 0. *)
Theorem float_position_truncated {platform : Platform} env remote ev m e call :
  Dict.lookup "ThumbnailPosition" (configuration ev)
  = Some (PFloat (FFinite m e)) ->
  e < 0 ->
  In call (calls (snd (lambda_handler env remote ev))) ->
  exists p,
    get_at FramerateDenominator_path (Settings (call_request call))
    = Some (PInt p)
    /\ (0 <= m -> p * 2 ^ (- e) <= m < (p + 1) * 2 ^ (- e))
    /\ (m <= 0 -> (p - 1) * 2 ^ (- e) < m <= p * 2 ^ (- e)).
Proof.
  intros Hv He Hin.
  destruct (handler_call_inv env remote ev call Hin)
    as (w & b & k & a & p & url & _ & _ & Hpos & _ & _ & -> & _).
  unfold position in Hpos. rewrite Hv in Hpos.
  unfold py_int, float_trunc in Hpos.
  destruct (0 <=? e) eqn:E; [apply Z.leb_le in E; lia|].
  injection Hpos as <-.
  exists (Z.quot m (2 ^ (- e))). split; [reflexivity|].
  apply quot_bounds. apply Z.pow_pos_nonneg; lia.
Qed.

Lemma float_position_truncated_witness :
  let ev := Sample.event_position (PFloat (FFinite 1 (-1))) in
  exists call,
    calls (snd (lambda_handler Sample.env (Sample.accepting "abc123") ev))
    = [call]
    /\ get_at FramerateDenominator_path (Settings (call_request call))
       = Some (PInt 0).
Proof.
  cbv zeta.
  exists (the_call Sample.env "https://mediaconvert.example" "asset-1"
            "wf-1" "s3://input-bucket/videos/a.mp4" 0
            (Returns (PDict [("Job", PDict [("Id", PStr "abc123")])]))).
  split; [reflexivity|].
  destruct (float_position_truncated (platform := Sample.platform)
              Sample.env (Sample.accepting "abc123")
              (Sample.event_position (PFloat (FFinite 1 (-1)))) 1 (-1)
              (the_call Sample.env "https://mediaconvert.example" "asset-1"
                 "wf-1" "s3://input-bucket/videos/a.mp4" 0
                 (Returns (PDict [("Job", PDict [("Id", PStr "abc123")])]))))
    as (p & Hp & Hpos & _);
    [reflexivity | lia | left; reflexivity |].
  rewrite Hp. change (2 ^ (- (-1))) with 2 in Hpos.
  assert (p = 0) as -> by lia. reflexivity.
Defined.

(** X21.  When [boto3.client] raises for the configured endpoint, on line
    79, a valid event ends in that exception: it is outside every [try], so
    it leaves the handler as it was raised, with nothing submitted and the
    record untouched, and it is never a [MasExecutionError]. *)
Theorem client_failure_escapes {platform : Platform} env remote ev url failure :
  valid_event ev = true ->
  MEDIACONVERT_ENDPOINT env = Some url ->
  boto3_client (region env) url = Some failure ->
  lambda_handler env remote ev
  = (Raise (exn_of_client_failure failure), mkState ev [])
  /\ (forall out, exn_of_client_failure failure <> MasExecutionError out)
  /\ (forall key, exn_of_client_failure failure <> KeyError key).
Proof.
  intros Hv Hu Hc.
  destruct (valid_fields ev Hv) as (w & b & k & a & p & Hreq & Ha & Hpos).
  split; [|split; intros; destruct failure; discriminate].
  apply handler_is.
  exact (run_client_raises env remote ev w _ _ _ a p url failure
           Hreq (file_location_str b k) Ha Hpos Hu Hc).
Qed.

Lemma client_failure_escapes_witness :
  lambda_handler Sample2.env_bad_endpoint (Sample.accepting "abc123") Sample.event
  = (Raise ValueError, mkState Sample.event []).
Proof.
  apply (client_failure_escapes (platform := Sample.platform)
           Sample2.env_bad_endpoint (Sample.accepting "abc123") Sample.event
           "mediaconvert.example" InvalidArgument);
    reflexivity.
Defined.

(** X22.  When [boto3.client] raises on line 45, with the four variables
    set and [botoConfig] in order, the module does not load, and what stops
    the load is that exception. *)
Theorem module_client_not_made {platform : Platform} json_loads Config environ r s c failure :
  first_unset environ load_variables = None ->
  environ_get "AWS_REGION" environ = Some r ->
  environ_get "botoConfig" environ = Some s ->
  json_loads s = Ok c ->
  Config c = Ok tt ->
  boto3_client_config c r = Some failure ->
  module_init json_loads Config environ = Raise (exn_of_client_failure failure).
Proof.
  unfold first_unset, load_variables. intros Hset Hr Hs Hj Hc Hclient.
  unfold module_init, environ_getitem.
  rewrite Hr, Hs, Hj, Hc. rewrite Hr, Hs in Hset.
  destruct (environ_get "mediaconvertRole" environ) as [m|]; [|discriminate].
  destruct (environ_get "DATAPLANE_BUCKET" environ) as [d|]; [|discriminate].
  now rewrite Hclient.
Qed.

Lemma module_client_not_made_witness :
  module_init Sample2.json_loads Sample2.Config Sample2.environ_bad_region
  = Raise ValueError.
Proof.
  apply (module_client_not_made (platform := Sample.platform)
           Sample2.json_loads Sample2.Config Sample2.environ_bad_region
           "us east 1" "{}" (PDict []) InvalidArgument);
    reflexivity.
Defined.

(** X23.  An asset id that is there but is no str (a number, a null) stops
    the handler at the concatenation of line 68, where it is used as it
    comes: with the required fields there, the [TypeError] leaves the
    handler unhandled, whatever the thumbnail position and the endpoint,
    with nothing submitted and the record untouched. *)
Theorem non_string_asset_id_raises {platform : Platform} env remote ev :
  required_present ev = true ->
  asset_typed ev = false ->
  lambda_handler env remote ev = (Raise TypeError, mkState ev []).
Proof.
  intros Hreq Ha.
  apply required_present_fields in Hreq as (w & b & k & _ & _ & _ & Hreq).
  apply handler_is.
  apply run_destination_raises with w (PStr b) (PStr k) ("s3://" ++ b ++ "/" ++ k).
  - exact Hreq.
  - apply file_location_str.
  - intros a E. unfold asset_typed in Ha. rewrite E in Ha. discriminate.
Qed.

Lemma non_string_asset_id_raises_witness :
  lambda_handler Sample.env (Sample.accepting "abc123") Sample2.event_asset_number
  = (Raise TypeError, mkState Sample2.event_asset_number []).
Proof.
  apply (non_string_asset_id_raises (platform := Sample.platform)
           Sample.env (Sample.accepting "abc123") Sample2.event_asset_number);
    reflexivity.
Defined.
